(** * The AgentBeats submission pipeline

    A shallow embedding of [.github/app/handlers/workflow_run.py] together
    with the parts of [db.py], [models.py] and [handlers/__init__.py] it
    calls, and the properties of the pipeline stated over it.

    Conventions of the embedding.
    - Python values that come from JSON (webhook payloads, manifests,
      GitHub responses) are values of [json]; JSON numbers are integers
      (floating-point numbers are outside the model).
    - A Python [str] is a [string]; one character stands for one code point.
    - An exception is a value of [exn]; fallible pure code returns
      [result], code that awaits a collaborator is a [prog]: a tree whose
      nodes are the awaited calls, so that a run of the handler and an
      interleaving of two handlers are both interpretations of the same
      program text.
    - The Python library ([zipfile], [json], [bytes.decode], [repr]) and the
      [github_client] module are not part of the sources; they are taken
      as parameters ([PyLib], [Services]). *)

From Stdlib Require Import ZArith String Ascii List Bool Lia DecimalString.
From Stdlib Require Strings.Byte.
Import ListNotations.
Open Scope string_scope.

Set Implicit Arguments.
Set Warnings "-register-all".

(** ** Exceptions and results *)

Inductive exn : Type :=
| KeyError (key : string)
| AttributeError (attr : string)
| TypeError (msg : string)
| DataError (msg : string)
| UniqueViolationError
| LibraryError (msg : string)
| GithubError (msg : string).

Inductive result (A : Type) : Type :=
| Ok (a : A)
| Err (e : exn).

Arguments Ok {A} a.
Arguments Err {A} e.

Definition rbind {A B : Type} (r : result A) (k : A -> result B) : result B :=
  match r with
  | Ok a => k a
  | Err e => Err e
  end.

Declare Scope result_scope.
Delimit Scope result_scope with result.
Notation "x <-? r ;; k" := (rbind r (fun x => k))
  (at level 61, r at next level, right associativity) : result_scope.

Definition bytes : Type := list Byte.byte.

(** ** Python values and the primitives the handler uses *)

Module Py.

Inductive json : Type :=
| JNull
| JBool (b : bool)
| JNum (n : Z)
| JStr (s : string)
| JArr (items : list json)
| JObj (fields : list (string * json)).

(** Lookup in a [dict]: the binding of the first occurrence of the key. *)
Fixpoint assoc (k : string) (kv : list (string * json)) : option json :=
  match kv with
  | [] => None
  | (k', v) :: rest => if String.eqb k' k then Some v else assoc k rest
  end.

(** [d.get(k, default)] *)
Definition get (d : json) (k : string) (default : json) : result json :=
  match d with
  | JObj kv =>
      Ok (match assoc k kv with Some v => v | None => default end)
  | _ => Err (AttributeError "get")
  end.

(** [d[k]] for a string key [k]. *)
Definition getitem (d : json) (k : string) : result json :=
  match d with
  | JObj kv =>
      match assoc k kv with
      | Some v => Ok v
      | None => Err (KeyError k)
      end
  | _ => Err (TypeError "subscript")
  end.

(** Truth value of a value, as tested by [if x] and [not x]. *)
Definition truthy (v : json) : bool :=
  match v with
  | JNull => false
  | JBool b => b
  | JNum n => negb (n =? 0)%Z
  | JStr s => negb (String.eqb s "")
  | JArr l => match l with [] => false | _ => true end
  | JObj kv => match kv with [] => false | _ => true end
  end.

(** [v == s] for a string [s]: only a string equals a string. *)
Definition eq_str (v : json) (s : string) : bool :=
  match v with
  | JStr t => String.eqb t s
  | _ => false
  end.

Definition ne_str (v : json) (s : string) : bool := negb (eq_str v s).

Fixpoint chars (s : string) : list json :=
  match s with
  | EmptyString => []
  | String c rest => JStr (String c EmptyString) :: chars rest
  end.

(** The sequence a [for] loop walks through. *)
Definition iter (v : json) : result (list json) :=
  match v with
  | JArr l => Ok l
  | JObj kv => Ok (map (fun p => JStr (fst p)) kv)
  | JStr s => Ok (chars s)
  | _ => Err (TypeError "not iterable")
  end.

(** [s.split(sep)] for a one-character separator: the pieces between the
    occurrences of [sep]; never empty. *)
Fixpoint split_on (sep : ascii) (s : string) : list string :=
  match s with
  | EmptyString => [EmptyString]
  | String c rest =>
      if Ascii.eqb c sep then EmptyString :: split_on sep rest
      else match split_on sep rest with
           | [] => [String c EmptyString]
           | p :: ps => String c p :: ps
           end
  end.

Definition split (v : json) (sep : ascii) : result (list string) :=
  match v with
  | JStr s => Ok (split_on sep s)
  | _ => Err (AttributeError "split")
  end.

(** [s.replace(old, new)] for one-character [old] and [new]. *)
Fixpoint replace_char (old new : ascii) (s : string) : string :=
  match s with
  | EmptyString => EmptyString
  | String c rest =>
      String (if Ascii.eqb c old then new else c) (replace_char old new rest)
  end.

Definition replace (v : json) (old new : ascii) : result string :=
  match v with
  | JStr s => Ok (replace_char old new s)
  | _ => Err (AttributeError "replace")
  end.

(** [s[:n]] *)
Fixpoint slice_to (n : nat) (s : string) : string :=
  match n, s with
  | S n', String c rest => String c (slice_to n' rest)
  | _, _ => EmptyString
  end.

(** [s.endswith(suffix)]: [suffix] is [s] itself or ends the tail of [s]. *)
Fixpoint endswith (s suffix : string) : bool :=
  String.eqb s suffix ||
  match s with
  | EmptyString => false
  | String _ rest => endswith rest suffix
  end.

(** [str(n)] for an integer. *)
Definition str_int (n : Z) : string := NilZero.string_of_int (Z.to_int n).

(** [str(v)], as an f-string formats [v]; [repr] is the library's
    [repr] and is used for lists and dicts only. *)
Definition str (repr : json -> string) (v : json) : string :=
  match v with
  | JNull => "None"
  | JBool true => "True"
  | JBool false => "False"
  | JNum n => str_int n
  | JStr s => s
  | JArr _ | JObj _ => repr v
  end.

End Py.

Import Py.

(** ** The Python library, as far as the handler uses it *)

(** An open [zipfile.ZipFile]: the names of its entries in archive order
    and the content of the entry of a given name. *)
Record ZipFile : Type := {
  namelist : list string;
  read : string -> result bytes
}.

Record PyLib : Type := {
  zip_open : bytes -> result ZipFile;        (* zipfile.ZipFile(io.BytesIO(b)) *)
  json_loads : bytes -> result json;         (* json.loads(b) *)
  json_dumps : json -> string;               (* json.dumps(v) *)
  json_dumps_indent2 : json -> string;       (* json.dumps(v, indent=2) *)
  decode_utf8 : bytes -> result string;      (* b.decode("utf-8") *)
  repr : json -> string                      (* repr(v) of a list or dict *)
}.

(** ** models.py *)

(** [created_at] is filled in by the database and read by nothing here;
    it is left out of both records. *)
Record Leaderboard : Type := {
  lb_id : Z;
  github_repo_id : Z;
  repo_full_name : string;
  installation_id : Z
}.

Record Submission : Type := {
  id : Z;
  workflow_run_id : Z;
  leaderboard_repo : string;
  purple_repo : string;
  purple_owner : string;
  status : string;
  pr_number : option Z;
  pr_url : option string;
  results_json : option string;
  error_message : option string
}.

(** ** handlers/__init__.py *)

Module Status.
Definition OK : string := "ok".
Definition IGNORED : string := "ignored".
Definition ERROR : string := "error".
Definition REJECTED : string := "rejected".
End Status.

(** ** The collaborators the handler awaits *)

(** Calls of the [github_client] module, with the arguments the handler
    passes.  The artifact calls receive values of the webhook payload as
    they are; the write calls receive fields of a [Leaderboard]. *)
Inductive gh_call : Type :=
| GetArtifacts (installation repo run_id : json)
| DownloadArtifact (installation repo artifact_id : json)
| CreateBranch (installation : Z) (repo branch base : string)
| CommitFiles (installation : Z) (repo branch : string)
    (files : list (string * string)) (message : string)
| CreatePullRequest (installation : Z) (repo head base title body : string).

Definition gh_resp (c : gh_call) : Type :=
  match c with
  | GetArtifacts _ _ _ => json
  | DownloadArtifact _ _ _ => option bytes
  | CreateBranch _ _ _ _ => unit
  | CommitFiles _ _ _ _ _ => unit
  | CreatePullRequest _ _ _ _ _ _ => json
  end.

(** The queries of [db.py] the handler uses, and the calls of
    [github_client]. *)
Inductive call : Type :=
| DbGetLeaderboardByRepoName (name : string)
| DbGetSubmissionByRunId (run_id : Z)
| DbCreateSubmission (run_id : Z)
    (leaderboard_repo purple_repo purple_owner status : string)
    (error_message pr_url : option string) (pr_number : option Z)
    (results_json : option string)
| Gh (c : gh_call).

Definition resp (c : call) : Type :=
  match c with
  | DbGetLeaderboardByRepoName _ => option Leaderboard
  | DbGetSubmissionByRunId _ => option Submission
  | DbCreateSubmission _ _ _ _ _ _ _ _ _ => Submission
  | Gh c => gh_resp c
  end.

(** ** Programs: a coroutine is a tree of awaited calls *)

Inductive prog (A : Type) : Type :=
| Ret (a : A)
| Throw (e : exn)
| Vis (c : call) (k : resp c -> prog A).

Arguments Ret {A} a.
Arguments Throw {A} e.
Arguments Vis {A} c k.

Fixpoint bind {A B : Type} (m : prog A) (f : A -> prog B) : prog B :=
  match m with
  | Ret a => f a
  | Throw e => Throw e
  | Vis c k => Vis c (fun r => bind (k r) f)
  end.

(** [await c]: perform the call and resume with its answer. *)
Definition await (c : call) : prog (resp c) := Vis c (fun r => Ret r).

(** A fallible pure step inside a coroutine. *)
Definition attempt {A B : Type} (r : result A) (f : A -> prog B) : prog B :=
  match r with
  | Ok a => f a
  | Err e => Throw e
  end.

Declare Scope prog_scope.
Delimit Scope prog_scope with prog.
Notation "x <- m ;; k" := (bind m (fun x => k))
  (at level 61, m at next level, right associativity) : prog_scope.
Notation "x <-! r ;; k" := (attempt r (fun x => k))
  (at level 61, r at next level, right associativity) : prog_scope.

(** ** The world: the two tables and the calls made to GitHub *)

Record World : Type := {
  leaderboards : list Leaderboard;
  submissions : list Submission;
  gh_log : list gh_call
}.

(** What lies outside the sources: the answers of GitHub, which may
    depend on the calls made before, and whether the schema (the
    migrations are not part of the sources) declares
    [submissions.workflow_run_id] unique. *)
Record Services : Type := {
  github_client : list gh_call -> forall c : gh_call, result (gh_resp c);
  run_id_unique : bool
}.

(** [SELECT * FROM leaderboards WHERE repo_full_name = $1], first row. *)
Definition get_leaderboard_by_repo_name_row
    (name : string) (t : list Leaderboard) : option Leaderboard :=
  find (fun l => String.eqb (repo_full_name l) name) t.

(** [SELECT * FROM submissions WHERE workflow_run_id = $1], first row. *)
Definition get_submission_by_run_id_row
    (run_id : Z) (t : list Submission) : option Submission :=
  find (fun s => (workflow_run_id s =? run_id)%Z) t.

Section Semantics.

Variable svc : Services.

(** One awaited call, performed atomically on the world.  The database
    answers every query (a lost connection is outside the model); an
    inserted row takes the next serial [id]; a call to GitHub is logged
    whether or not it succeeds. *)
Definition exec (c : call) (w : World) : result (resp c) * World :=
  match c return result (resp c) * World with
  | DbGetLeaderboardByRepoName name =>
      (Ok (get_leaderboard_by_repo_name_row name (leaderboards w)), w)
  | DbGetSubmissionByRunId run_id =>
      (Ok (get_submission_by_run_id_row run_id (submissions w)), w)
  | DbCreateSubmission run_id lrepo prepo powner st err url num res =>
      if run_id_unique svc &&
         match get_submission_by_run_id_row run_id (submissions w) with
         | Some _ => true
         | None => false
         end
      then (Err UniqueViolationError, w)
      else
        let row := {| id := Z.of_nat (List.length (submissions w)) + 1;
                      workflow_run_id := run_id;
                      leaderboard_repo := lrepo;
                      purple_repo := prepo;
                      purple_owner := powner;
                      status := st;
                      pr_number := num;
                      pr_url := url;
                      results_json := res;
                      error_message := err |} in
        (Ok row,
         {| leaderboards := leaderboards w;
            submissions := (submissions w ++ [row])%list;
            gh_log := gh_log w |})
  | Gh c =>
      (github_client svc (gh_log w) c,
       {| leaderboards := leaderboards w;
          submissions := submissions w;
          gh_log := (gh_log w ++ [c])%list |})
  end.

(** A coroutine run to its end with nothing else scheduled in between. *)
Fixpoint run {A : Type} (p : prog A) (w : World) : result A * World :=
  match p with
  | Ret a => (Ok a, w)
  | Throw e => (Err e, w)
  | Vis c k =>
      match exec c w with
      | (Ok r, w') => run (k r) w'
      | (Err e, w') => (Err e, w')
      end
  end.

(** One scheduling step of a coroutine: up to its next suspension. *)
Definition step {A : Type} (p : prog A) (w : World) : prog A * World :=
  match p with
  | Vis c k =>
      match exec c w with
      | (Ok r, w') => (k r, w')
      | (Err e, w') => (Throw e, w')
      end
  | _ => (p, w)
  end.

(** Two coroutines on one event loop: [true] in the schedule resumes the
    first, [false] the second. *)
Fixpoint interleave {A : Type} (sched : list bool) (p q : prog A) (w : World)
  : prog A * prog A * World :=
  match sched with
  | [] => (p, q, w)
  | true :: rest => let (p', w') := step p w in interleave rest p' q w'
  | false :: rest => let (q', w') := step q w in interleave rest p q' w'
  end.

End Semantics.

(** ** db.py: the queries, at the types their signatures declare *)

(** The driver encodes an argument for the type of its column; a run id
    that is not an integer, or a URL that is neither text nor [None], is
    refused with a data error. *)
Definition as_int (v : json) : result Z :=
  match v with
  | JNum n => Ok n
  | _ => Err (DataError "integer expected")
  end.

Definition as_str (v : json) : result string :=
  match v with
  | JStr s => Ok s
  | _ => Err (DataError "text expected")
  end.

Definition as_opt_str (v : json) : result (option string) :=
  match v with
  | JNull => Ok None
  | JStr s => Ok (Some s)
  | _ => Err (DataError "text expected")
  end.

Definition get_leaderboard_by_repo_name (repo_full_name : string)
  : prog (option Leaderboard) :=
  await (DbGetLeaderboardByRepoName repo_full_name).

Definition get_submission_by_run_id (workflow_run_id : json)
  : prog (option Submission) :=
  (n <-! as_int workflow_run_id ;;
   await (DbGetSubmissionByRunId n))%prog.

Section Pipeline.

Variable lib : PyLib.

Definition fstr (v : json) : string := Py.str (repr lib) v.

(** [create_submission]; an absent [pr_url] or [results_json] is [JNull],
    [pr_number] is never passed and keeps its default. *)
Definition create_submission (workflow_run_id : json)
    (leaderboard_repo : string) (purple_repo : json) (purple_owner status : string)
    (error_message : option string) (pr_url results_json : json)
  : prog Submission :=
  (n <-! as_int workflow_run_id ;;
   prepo <-! as_str purple_repo ;;
   url <-! as_opt_str pr_url ;;
   await (DbCreateSubmission n leaderboard_repo prepo purple_owner status
            error_message url None
            (if truthy results_json
             then Some (json_dumps lib results_json) else None)))%prog.

(** ** handlers/workflow_run.py *)

(** [record_submission] *)
Definition record_submission (run_id : json) (leaderboard_repo : string)
    (purple_repo : json) (status : string) (error : option string)
    (pr_url results : json) : prog unit :=
  (parts <-! Py.split purple_repo "/" ;;
   _ <- create_submission run_id leaderboard_repo purple_repo
          (nth 0 parts "") status error pr_url results ;;
   Ret tt)%prog.

(** [find_leaderboard]: the body of the loop, then the function. *)
Fixpoint find_leaderboard_loop (refs : list json) : prog (option Leaderboard) :=
  match refs with
  | [] => Ret None
  | ref :: rest =>
      (path <-! Py.getitem ref "path" ;;
       parts <-! Py.split path "/" ;;
       if (List.length parts <? 2)%nat then find_leaderboard_loop rest
       else
         let repo_full_name := nth 0 parts "" ++ "/" ++ nth 1 parts "" in
         leaderboard <- get_leaderboard_by_repo_name repo_full_name ;;
         match leaderboard with
         | Some l => Ret (Some l)
         | None => find_leaderboard_loop rest
         end)%prog
  end.

Definition find_leaderboard (referenced_workflows : json)
  : prog (option Leaderboard) :=
  (refs <-! Py.iter referenced_workflows ;;
   find_leaderboard_loop refs)%prog.

(** [download_submission_artifact] *)
Fixpoint download_loop (installation_id repo : json) (artifacts : list json)
  : prog (option bytes) :=
  match artifacts with
  | [] => Ret None
  | artifact :: rest =>
      (name <-! Py.getitem artifact "name" ;;
       if Py.eq_str name "agentbeats-submission"
       then
         aid <-! Py.getitem artifact "id" ;;
         await (Gh (DownloadArtifact installation_id repo aid))
       else download_loop installation_id repo rest)%prog
  end.

Definition download_submission_artifact (installation_id repo run_id : json)
  : prog (option bytes) :=
  (artifacts <- await (Gh (GetArtifacts installation_id repo run_id)) ;;
   listed <-! Py.get artifacts "artifacts" (JArr []) ;;
   items <-! Py.iter listed ;;
   download_loop installation_id repo items)%prog.

(** [parse_artifact]: the loop over [zf.namelist()], then the function. *)
Fixpoint parse_entries (zf : ZipFile) (names : list string)
    (acc : json * json * string) : result (json * json * string) :=
  match names with
  | [] => Ok acc
  | name :: rest =>
      let '(results, manifest, scenario) := acc in
      (if Py.endswith name "results.json" then
         b <-? read zf name ;;
         v <-? json_loads lib b ;;
         parse_entries zf rest (v, manifest, scenario)
       else if Py.endswith name "manifest.json" then
         b <-? read zf name ;;
         v <-? json_loads lib b ;;
         parse_entries zf rest (results, v, scenario)
       else if Py.endswith name "scenario.toml" then
         b <-? read zf name ;;
         s <-? decode_utf8 lib b ;;
         parse_entries zf rest (results, manifest, s)
       else parse_entries zf rest acc)%result
  end.

Definition parse_artifact (artifact_zip : bytes)
  : result (json * json * string) :=
  (zf <-? zip_open lib artifact_zip ;;
   parse_entries zf (namelist zf) (JObj [], JObj [], ""))%result.

Definition nl : string := String (ascii_of_nat 10) EmptyString.

(** [format_pr_body] *)
Definition format_pr_body (manifest results : json) : result string :=
  (owner <-? Py.getitem manifest "purple_agent_owner" ;;
   repo <-? Py.getitem manifest "purple_agent_repo" ;;
   run_id <-? Py.getitem manifest "run_id" ;;
   run_url <-? Py.getitem manifest "run_url" ;;
   Ok ("## AgentBeats Submission" ++ nl ++
       nl ++
       "| Field | Value |" ++ nl ++
       "|-------|-------|" ++ nl ++
       "| **Competitor** | @" ++ fstr owner ++ " |" ++ nl ++
       "| **Repository** | [" ++ fstr repo ++ "](https://github.com/"
         ++ fstr repo ++ ") |" ++ nl ++
       "| **Workflow Run** | [#" ++ fstr run_id ++ "](" ++ fstr run_url
         ++ ") |" ++ nl ++
       nl ++
       "### Results" ++ nl ++
       "```json" ++ nl ++
       json_dumps_indent2 lib results ++ nl ++
       "```" ++ nl ++
       nl ++
       "---" ++ nl ++
       "*Auto-generated by [AgentBeats](https://agentbeats.dev)*" ++ nl))%result.

(** The names [create_submission_pr] derives (lines 137 to 139). *)
Definition submission_timestamp (timestamp : json) : result string :=
  (t <-? Py.replace timestamp ":" "-" ;;
   Ok (Py.slice_to 15 (Py.replace_char "T" "-" t)))%result.

Definition branch_name (run_id : json) : string :=
  "agentbeats/submission-" ++ fstr run_id.

Definition submission_path (purple_owner : json) (timestamp : string) : string :=
  "submissions/" ++ fstr purple_owner ++ "/" ++ timestamp.

(** [create_submission_pr] *)
Definition create_submission_pr (leaderboard : Leaderboard)
    (manifest results : json) (scenario : string) (run_id : json)
  : prog json :=
  (purple_owner <-! Py.getitem manifest "purple_agent_owner" ;;
   ts <-! Py.getitem manifest "timestamp" ;;
   timestamp <-! submission_timestamp ts ;;
   let branch := branch_name run_id in
   let path := submission_path purple_owner timestamp in
   _ <- await (Gh (CreateBranch (installation_id leaderboard)
                     (repo_full_name leaderboard) branch "main")) ;;
   let files :=
     [ (path ++ "/results.json", json_dumps_indent2 lib results);
       (path ++ "/manifest.json", json_dumps_indent2 lib manifest);
       (path ++ "/scenario.toml", scenario) ] in
   _ <- await (Gh (CommitFiles (installation_id leaderboard)
                     (repo_full_name leaderboard) branch files
                     ("[AgentBeats] Submission from " ++ fstr purple_owner))) ;;
   body <-! format_pr_body manifest results ;;
   pr <- await (Gh (CreatePullRequest (installation_id leaderboard)
                      (repo_full_name leaderboard) branch "main"
                      ("[Submission] " ++ fstr purple_owner) body)) ;;
   html_url <-! Py.getitem pr "html_url" ;;
   Ret html_url)%prog.

(** The dictionaries the handler returns. *)
Definition ignored (reason : string) : json :=
  JObj [("status", JStr Status.IGNORED); ("reason", JStr reason)].

Definition error (reason : string) : json :=
  JObj [("status", JStr Status.ERROR); ("reason", JStr reason)].

Definition rejected (reason : string) : json :=
  JObj [("status", JStr Status.REJECTED); ("reason", JStr reason)].

Definition ok (pr_url : json) : json :=
  JObj [("status", JStr Status.OK); ("pr_url", pr_url)].

(** [handle_workflow_run] *)
Definition handle_workflow_run (payload : json) : prog json :=
  (action <-! Py.get payload "action" JNull ;;
   if Py.ne_str action "completed" then Ret (ignored "not completed") else
   run <-! Py.getitem payload "workflow_run" ;;
   conclusion <-! Py.get run "conclusion" JNull ;;
   if Py.ne_str conclusion "success"
   then Ret (ignored ("conclusion=" ++ fstr conclusion)) else
   run_id <-! Py.getitem run "id" ;;
   repository <-! Py.getitem payload "repository" ;;
   purple_repo <-! Py.getitem repository "full_name" ;;
   referenced <-! Py.get run "referenced_workflows" (JArr []) ;;
   if negb (Py.truthy referenced)
   then Ret (ignored "no reusable workflows") else
   leaderboard <- find_leaderboard referenced ;;
   match leaderboard with
   | None => Ret (ignored "no registered leaderboard")
   | Some leaderboard =>
   existing <- get_submission_by_run_id run_id ;;
   match existing with
   | Some _ => Ret (ignored "duplicate")
   | None =>
   installation <-! Py.getitem payload "installation" ;;
   purple_installation_id <-! Py.getitem installation "id" ;;
   artifact_data <- download_submission_artifact
                      purple_installation_id purple_repo run_id ;;
   match artifact_data with
   | None | Some [] =>
       _ <- record_submission run_id (repo_full_name leaderboard) purple_repo
              "failed" (Some "No artifact found") JNull JNull ;;
       Ret (error "no artifact")
   | Some artifact_zip =>
   parsed <-! parse_artifact artifact_zip ;;
   let '(results, manifest, scenario) := parsed in
   target <-! Py.get manifest "target_leaderboard" JNull ;;
   if Py.ne_str target (repo_full_name leaderboard)
   then
     _ <- record_submission run_id (repo_full_name leaderboard) purple_repo
            "rejected" (Some "Target mismatch") JNull JNull ;;
     Ret (rejected "target mismatch")
   else
   pr_url <- create_submission_pr leaderboard manifest results scenario run_id ;;
   _ <- record_submission run_id (repo_full_name leaderboard) purple_repo
          "submitted" None pr_url results ;;
   Ret (ok pr_url)
   end end end)%prog.

End Pipeline.

(** * Vocabulary of the statements *)

(** [has_char c s]: the character [c] occurs in [s]. *)
Fixpoint has_char (c : ascii) (s : string) : bool :=
  match s with
  | EmptyString => false
  | String d rest => Ascii.eqb d c || has_char c rest
  end.

(** The full name a reference's path stands for: its first two pieces. *)
Definition key_of (parts : list string) : string :=
  nth 0 parts "" ++ "/" ++ nth 1 parts "".

(** A reference that the resolver passes over: it carries a path, and the
    path has a single piece or names no registered leaderboard. *)
Definition misses (t : list Leaderboard) (ref : json) : Prop :=
  exists path,
    Py.getitem ref "path" = Ok (JStr path) /\
    ((List.length (Py.split_on "/" path) < 2)%nat \/
     get_leaderboard_by_repo_name_row (key_of (Py.split_on "/" path)) t = None).

(** A reference that names the registered leaderboard [lb]. *)
Definition hits (t : list Leaderboard) (ref : json) (lb : Leaderboard) : Prop :=
  exists path,
    Py.getitem ref "path" = Ok (JStr path) /\
    (2 <= List.length (Py.split_on "/" path))%nat /\
    get_leaderboard_by_repo_name_row (key_of (Py.split_on "/" path)) t = Some lb.

(** Worlds reached from [w]: after further calls to GitHub, and after the
    insertion of a row. *)
Definition logged (w : World) (cs : list gh_call) : World :=
  {| leaderboards := leaderboards w;
     submissions := submissions w;
     gh_log := (gh_log w ++ cs)%list |}.

Definition inserted (w : World) (row : Submission) : World :=
  {| leaderboards := leaderboards w;
     submissions := (submissions w ++ [row])%list;
     gh_log := gh_log w |}.

Definition next_id (w : World) : Z := Z.of_nat (List.length (submissions w)) + 1.

(** What a payload carries.  [completed]: its action is [completed].
    [succeeded]: the run's conclusion is [success].  [identified]: the run
    has an id and the payload names the submitting repository.
    [run_event]: all of these, with a non-empty list of referenced
    workflows. *)
Definition completed (payload : json) : Prop :=
  exists action,
    Py.get payload "action" JNull = Ok action /\
    Py.ne_str action "completed" = false.

Definition succeeded (run : json) : Prop :=
  exists conclusion,
    Py.get run "conclusion" JNull = Ok conclusion /\
    Py.ne_str conclusion "success" = false.

Definition identified (payload run run_id purple_repo : json) : Prop :=
  Py.getitem run "id" = Ok run_id /\
  exists repository,
    Py.getitem payload "repository" = Ok repository /\
    Py.getitem repository "full_name" = Ok purple_repo.

Definition run_event (payload run_id purple_repo referenced : json) : Prop :=
  exists run,
    completed payload /\
    Py.getitem payload "workflow_run" = Ok run /\
    succeeded run /\
    identified payload run run_id purple_repo /\
    Py.get run "referenced_workflows" (JArr []) = Ok referenced /\
    Py.truthy referenced = true.

Definition installed (payload installation_id : json) : Prop :=
  exists installation,
    Py.getitem payload "installation" = Ok installation /\
    Py.getitem installation "id" = Ok installation_id.

(** Entries of an artifact listing: one that carries another name, and one
    named [agentbeats-submission] with its id. *)
Definition other_artifact (artifact : json) : Prop :=
  exists name,
    Py.getitem artifact "name" = Ok name /\
    Py.eq_str name "agentbeats-submission" = false.

Definition submission_artifact (artifact aid : json) : Prop :=
  exists name,
    Py.getitem artifact "name" = Ok name /\
    Py.eq_str name "agentbeats-submission" = true /\
    Py.getitem artifact "id" = Ok aid.

(** GitHub, asked in world [w] for the artifacts of a run, lists [items]. *)
Definition lists (svc : Services) (w : World)
    (installation_id repo run_id : json) (items : list json) : Prop :=
  exists artifacts,
    github_client svc (gh_log w) (GetArtifacts installation_id repo run_id)
    = Ok artifacts /\
    Py.get artifacts "artifacts" (JArr []) = Ok (JArr items).

(** The row [record_submission] writes in world [w]. *)
Definition recorded (lib : PyLib) (w : World) (run_id : Z)
    (leaderboard_repo purple_repo status : string) (error : option string)
    (pr_url : option string) (results : json) : Submission :=
  {| id := next_id w;
     workflow_run_id := run_id;
     leaderboard_repo := leaderboard_repo;
     purple_repo := purple_repo;
     purple_owner := nth 0 (Py.split_on "/" purple_repo) "";
     status := status;
     pr_number := None;
     pr_url := pr_url;
     results_json := if Py.truthy results
                     then Some (json_dumps lib results) else None;
     error_message := error |}.

(** [fresh_run]: the payload is a completed, successful run event with id
    [n] from repository [repo] under installation [inst], its references
    resolve to the leaderboard [lb] in world [w], and [w] holds no
    submission for [n]. *)
Definition fresh_run (svc : Services) (payload : json) (w : World)
    (n : Z) (repo : string) (inst : json) (lb : Leaderboard) : Prop :=
  exists referenced,
    run_event payload (JNum n) (JStr repo) referenced /\
    installed payload inst /\
    fst (run svc (find_leaderboard referenced) w) = Ok (Some lb) /\
    get_submission_by_run_id_row n (submissions w) = None.

(** [delivers]: GitHub lists, for the run, an artifact named
    [agentbeats-submission] with id [aid] after entries of other names, and
    answers the download of [aid] with the non-empty archive [zip]. *)
Definition delivers (svc : Services) (w : World)
    (inst repo run_id aid : json) (zip : bytes) : Prop :=
  (exists pre a post,
      lists svc w inst repo run_id (pre ++ a :: post)%list /\
      Forall other_artifact pre /\
      submission_artifact a aid) /\
  github_client svc (gh_log w ++ [GetArtifacts inst repo run_id])%list
    (DownloadArtifact inst repo aid) = Ok (Some zip) /\
  zip <> [].

(** The last name of the archive that ends with [suffix], and the document
    extracted for it: [f] of that name, or [default] when no name ends
    with [suffix]. *)
Fixpoint last_ending (suffix : string) (names : list string) : option string :=
  match names with
  | [] => None
  | name :: rest =>
      match last_ending suffix rest with
      | Some m => Some m
      | None => if Py.endswith name suffix then Some name else None
      end
  end.

Definition pick {A : Type} (suffix : string) (f : string -> A) (default : A)
    (names : list string) : A :=
  match last_ending suffix names with
  | Some name => f name
  | None => default
  end.

(** What the archive holds: every entry named as a JSON document reads and
    parses, every entry named as a scenario reads and decodes. *)
Definition readable (lib : PyLib) (zf : ZipFile) (names : list string)
    (content : string -> bytes) (doc : string -> json)
    (text : string -> string) : Prop :=
  forall name, In name names ->
    (Py.endswith name "results.json" = true \/
     Py.endswith name "manifest.json" = true ->
     read zf name = Ok (content name) /\
     json_loads lib (content name) = Ok (doc name)) /\
    (Py.endswith name "scenario.toml" = true ->
     read zf name = Ok (content name) /\
     decode_utf8 lib (content name) = Ok (text name)).

(** * A small deployment, for the examples

    One registered leaderboard, [expected/repo].  An archive is a list of
    bytes, one per entry; GitHub lists for a run the artifact whose id is
    the run id, except for run 7, and refuses a branch that exists. *)

Module Toy.

Definition manifest (target : string) : json :=
  JObj [("purple_agent_owner", JStr "alice");
        ("purple_agent_repo", JStr "alice/agent");
        ("run_id", JNum 1);
        ("run_url", JStr "https://github.com/alice/agent/actions/runs/1");
        ("timestamp", JStr "2024-01-02T03:04:05Z");
        ("target_leaderboard", JStr target)].

Definition entry_name (b : Byte.byte) : string :=
  match b with
  | Byte.x01 => "run/results.json"
  | Byte.x02 => "run/manifest.json"
  | Byte.x03 => "run/scenario.toml"
  | Byte.x04 => "alt/manifest.json"
  | Byte.x05 => "alt/results.json"
  | _ => "README.md"
  end.

Definition entry (name : string) : result bytes :=
  if String.eqb name "run/results.json" then Ok [Byte.x01]
  else if String.eqb name "run/manifest.json" then Ok [Byte.x02]
  else if String.eqb name "run/scenario.toml" then Ok [Byte.x03]
  else if String.eqb name "alt/manifest.json" then Ok [Byte.x04]
  else if String.eqb name "alt/results.json" then Ok [Byte.x05]
  else if String.eqb name "README.md" then Ok [Byte.x00]
  else Err (KeyError name).

Definition loads (b : bytes) : result json :=
  match b with
  | [Byte.x01] => Ok (JObj [("score", JNum 1)])
  | [Byte.x02] => Ok (manifest "expected/repo")
  | [Byte.x04] => Ok (manifest "other/repo")
  | [Byte.x05] => Ok (JObj [])
  | _ => Err (LibraryError "JSONDecodeError")
  end.

Definition decode (b : bytes) : result string :=
  match b with
  | [Byte.x03] => Ok "a=1"
  | _ => Err (LibraryError "UnicodeDecodeError")
  end.

Definition lib : PyLib :=
  {| zip_open := fun b =>
       match b with
       | [] => Err (LibraryError "BadZipFile")
       | _ => Ok {| namelist := map entry_name b; read := entry |}
       end;
     json_loads := loads;
     json_dumps := fun v =>
       match v with
       | JObj [("score", JNum 1)] => "{'score': 1}"
       | _ => "{}"
       end;
     json_dumps_indent2 := fun _ => "{}";
     decode_utf8 := decode;
     repr := fun _ => "{}" |}.

Definition branch_exists (repo branch : string) (c : gh_call) : bool :=
  match c with
  | CreateBranch _ r b _ => String.eqb r repo && String.eqb b branch
  | _ => false
  end.

Definition github (log : list gh_call) (c : gh_call) : result (gh_resp c) :=
  match c return result (gh_resp c) with
  | GetArtifacts _ _ run_id =>
      match run_id with
      | JNum 7 =>
          Ok (JObj [("total_count", JNum 1);
                    ("artifacts",
                     JArr [JObj [("id", JNum 70);
                                 ("name", JStr "agentbeats-submission-logs")]])])
      | _ =>
          Ok (JObj [("total_count", JNum 2);
                    ("artifacts",
                     JArr [JObj [("id", JNum 10); ("name", JStr "logs")];
                           JObj [("id", run_id);
                                 ("name", JStr "agentbeats-submission")]])])
      end
  | DownloadArtifact _ _ aid =>
      match aid with
      | JNum 1 => Ok (Some [Byte.x01; Byte.x02; Byte.x03])
      | JNum 2 => Ok (Some [Byte.x01; Byte.x04; Byte.x03])
      | JNum 3 => Ok (Some [Byte.x01; Byte.x03])
      | JNum 4 => Ok (Some [Byte.x05; Byte.x02; Byte.x03])
      | _ => Ok None
      end
  | CreateBranch _ repo branch _ =>
      if existsb (branch_exists repo branch) log
      then Err (GithubError "Reference already exists")
      else Ok tt
  | CommitFiles _ _ _ _ _ => Ok tt
  | CreatePullRequest _ repo _ _ _ _ =>
      Ok (JObj [("number", JNum 1);
                ("html_url", JStr ("https://github.com/" ++ repo ++ "/pull/1"))])
  end.

Definition svc (unique : bool) : Services :=
  {| github_client := github; run_id_unique := unique |}.

Definition board : Leaderboard :=
  {| lb_id := 1; github_repo_id := 1001;
     repo_full_name := "expected/repo"; installation_id := 5 |}.

Definition world : World :=
  {| leaderboards := [board]; submissions := []; gh_log := [] |}.

Definition reference (path : string) : json := JObj [("path", JStr path)].

Definition event (action : string) (conclusion : json) (n : Z)
    (referenced : list json) : json :=
  JObj [("action", JStr action);
        ("workflow_run",
         JObj [("id", JNum n);
               ("conclusion", conclusion);
               ("referenced_workflows", JArr referenced)]);
        ("repository", JObj [("full_name", JStr "alice/agent")]);
        ("installation", JObj [("id", JNum 99)])].

(** The completed, successful event of run [n], which reused the runner
    of [expected/repo]. *)
Definition payload (n : Z) : json :=
  event "completed" (JStr "success") n
    [reference "expected/repo/.github/workflows/runner.yml"].

End Toy.

(** The deployment after run 1 was recorded as rejected. *)
Definition seen_world : World :=
  {| leaderboards := leaderboards Toy.world;
     submissions :=
       [ {| id := 1; workflow_run_id := 1;
            leaderboard_repo := "expected/repo";
            purple_repo := "alice/agent"; purple_owner := "alice";
            status := "rejected"; pr_number := None; pr_url := None;
            results_json := None;
            error_message := Some "Target mismatch" |} ];
     gh_log := [] |}.

(** The archives GitHub holds in this deployment, by artifact id. *)
Definition archive (n : Z) : bytes :=
  match n with
  | 1%Z => [Byte.x01; Byte.x02; Byte.x03]
  | 2%Z => [Byte.x01; Byte.x04; Byte.x03]
  | 3%Z => [Byte.x01; Byte.x03]
  | 4%Z => [Byte.x05; Byte.x02; Byte.x03]
  | _ => []
  end.

(** Two deliveries of one event on the event loop: each runs up to its
    duplicate check, then each runs to its end. *)
Definition racing_schedule : list bool :=
  [true; true; false; false; true; true; false; false].

(** The documents of an archive of this deployment, by entry name. *)
Definition toy_content (name : string) : bytes :=
  match Toy.entry name with Ok b => b | Err _ => [] end.

Definition toy_doc (name : string) : json :=
  match Toy.loads (toy_content name) with Ok v => v | Err _ => JNull end.

Definition toy_text (name : string) : string :=
  match Toy.decode (toy_content name) with Ok s => s | Err _ => "" end.


(** The three calls of the publisher, for a manifest of owner [owner]
    stamped [ts] and a body [body]. *)
Definition stamp_of (ts : string) : string :=
  Py.slice_to 15 (Py.replace_char "T" "-" (Py.replace_char ":" "-" ts)).

Definition branch_call (lib : PyLib) (lb : Leaderboard) (run_id : json)
  : gh_call :=
  CreateBranch (installation_id lb) (repo_full_name lb)
    (branch_name lib run_id) "main".

Definition commit_call (lib : PyLib) (lb : Leaderboard)
    (manifest results : json) (scenario : string) (run_id owner : json)
    (ts : string) : gh_call :=
  CommitFiles (installation_id lb) (repo_full_name lb) (branch_name lib run_id)
    [(submission_path lib owner (stamp_of ts) ++ "/results.json",
      json_dumps_indent2 lib results);
     (submission_path lib owner (stamp_of ts) ++ "/manifest.json",
      json_dumps_indent2 lib manifest);
     (submission_path lib owner (stamp_of ts) ++ "/scenario.toml", scenario)]
    ("[AgentBeats] Submission from " ++ fstr lib owner).

Definition pr_call (lib : PyLib) (lb : Leaderboard) (run_id owner : json)
    (body : string) : gh_call :=
  CreatePullRequest (installation_id lb) (repo_full_name lb)
    (branch_name lib run_id) "main" ("[Submission] " ++ fstr lib owner) body.

(** The first of [keys] that the dictionary [fields] lacks. *)
Fixpoint first_missing (keys : list string) (fields : list (string * json))
  : option string :=
  match keys with
  | [] => None
  | k :: rest =>
      match Py.assoc k fields with
      | Some _ => first_missing rest fields
      | None => Some k
      end
  end.

(** A name that is none of the three documents. *)
Definition no_document (name : string) : Prop :=
  Py.endswith name "results.json" = false /\
  Py.endswith name "manifest.json" = false /\
  Py.endswith name "scenario.toml" = false.

Definition is_document (name : string) : bool :=
  Py.endswith name "results.json" || Py.endswith name "manifest.json"
  || Py.endswith name "scenario.toml".

(** The deployment after an earlier attempt at run 1 left its branch
    behind. *)
Definition orphan_world : World :=
  {| leaderboards := leaderboards Toy.world;
     submissions := [];
     gh_log := [CreateBranch 5 "expected/repo" "agentbeats/submission-1"
                  "main"] |}.

(** * The installation handler and the webhook entry

    [handlers/installation.py], the remaining queries of [db.py],
    [webhooks.py] and the endpoint of [main.py].  The installation handler
    catches exceptions, so its coroutines resume with the outcome of a
    call, answer or exception; a pipeline coroutine embeds into them. *)

Inductive reg_call : Type :=
| Core (c : call)
| DbGetLeaderboardByRepoId (github_repo_id : Z)
| DbCreateLeaderboard (github_repo_id : Z) (repo_full_name : string)
    (installation_id : Z)
| DbUpdateLeaderboardRepoName (github_repo_id : Z) (repo_full_name : string)
| GhGetRepoContents (installation_id repo : json) (path : string).

Definition reg_resp (c : reg_call) : Type :=
  match c with
  | Core c => resp c
  | DbGetLeaderboardByRepoId _ => option Leaderboard
  | DbCreateLeaderboard _ _ _ => Leaderboard
  | DbUpdateLeaderboardRepoName _ _ => unit
  | GhGetRepoContents _ _ _ => json
  end.

Inductive task (A : Type) : Type :=
| Done (a : A)
| Fail (e : exn)
| Await (c : reg_call) (k : result (reg_resp c) -> task A).

Arguments Done {A} a.
Arguments Fail {A} e.
Arguments Await {A} c k.

Fixpoint tbind {A B : Type} (t : task A) (f : A -> task B) : task B :=
  match t with
  | Done a => f a
  | Fail e => Fail e
  | Await c k => Await c (fun r => tbind (k r) f)
  end.

(** [await c] where an exception of the call is raised in the caller. *)
Definition ask (c : reg_call) : task (reg_resp c) :=
  Await c (fun r => match r with Ok a => Done a | Err e => Fail e end).

Definition tattempt {A B : Type} (r : result A) (f : A -> task B) : task B :=
  match r with
  | Ok a => f a
  | Err e => Fail e
  end.

(** [try: t except Exception as e: h e] *)
Fixpoint catch {A : Type} (t : task A) (h : exn -> task A) : task A :=
  match t with
  | Done a => Done a
  | Fail e => h e
  | Await c k => Await c (fun r => catch (k r) h)
  end.

(** A coroutine of the pipeline, awaited from the entry point. *)
Fixpoint embed {A : Type} (p : prog A) : task A :=
  match p with
  | Ret a => Done a
  | Throw e => Fail e
  | Vis c k =>
      Await (Core c)
        (fun r => match r with Ok a => embed (k a) | Err e => Fail e end)
  end.

Declare Scope task_scope.
Delimit Scope task_scope with task.
Notation "x <- m ;; k" := (tbind m (fun x => k))
  (at level 61, m at next level, right associativity) : task_scope.
Notation "x <-! r ;; k" := (tattempt r (fun x => k))
  (at level 61, r at next level, right associativity) : task_scope.

(** The state the entry point works on: the world of the pipeline and the
    reads of repository contents made so far. *)
Record Site : Type := {
  core : World;
  contents_log : list (json * json * string)
}.

(** Outside the sources: the services of the pipeline, the answers of
    GitHub to a read of repository contents (they may depend on the calls
    and reads made before), whether the schema declares
    [leaderboards.github_repo_id] unique, and the text [str] gives for an
    exception. *)
Record Hosting : Type := {
  services : Services;
  repo_contents : list gh_call -> list (json * json * string) ->
                  json -> json -> string -> result json;
  repo_id_unique : bool;
  str_exn : exn -> string
}.

(** [SELECT * FROM leaderboards WHERE github_repo_id = $1], first row. *)
Definition get_leaderboard_by_repo_id_row
    (repo_id : Z) (t : list Leaderboard) : option Leaderboard :=
  find (fun l => (github_repo_id l =? repo_id)%Z) t.

(** [UPDATE leaderboards SET repo_full_name = $1 WHERE github_repo_id = $2] *)
Definition update_leaderboard_repo_name_rows
    (repo_id : Z) (name : string) (t : list Leaderboard) : list Leaderboard :=
  map (fun l =>
         if (github_repo_id l =? repo_id)%Z
         then {| lb_id := lb_id l;
                 github_repo_id := github_repo_id l;
                 repo_full_name := name;
                 installation_id := installation_id l |}
         else l) t.

Definition with_leaderboards (w : World) (t : list Leaderboard) : World :=
  {| leaderboards := t; submissions := submissions w; gh_log := gh_log w |}.

Section Registration.

Variable host : Hosting.

(** One awaited call of the entry point, performed atomically. *)
Definition reg_exec (c : reg_call) (s : Site) : result (reg_resp c) * Site :=
  match c return result (reg_resp c) * Site with
  | Core c0 =>
      let (r, w') := exec (services host) c0 (core s) in
      (r, {| core := w'; contents_log := contents_log s |})
  | DbGetLeaderboardByRepoId rid =>
      (Ok (get_leaderboard_by_repo_id_row rid (leaderboards (core s))), s)
  | DbCreateLeaderboard rid name inst =>
      if repo_id_unique host &&
         match get_leaderboard_by_repo_id_row rid (leaderboards (core s)) with
         | Some _ => true
         | None => false
         end
      then (Err UniqueViolationError, s)
      else
        let row := {| lb_id := Z.of_nat (List.length (leaderboards (core s))) + 1;
                      github_repo_id := rid;
                      repo_full_name := name;
                      installation_id := inst |} in
        (Ok row,
         {| core := with_leaderboards (core s)
                      (leaderboards (core s) ++ [row])%list;
            contents_log := contents_log s |})
  | DbUpdateLeaderboardRepoName rid name =>
      (Ok tt,
       {| core := with_leaderboards (core s)
                    (update_leaderboard_repo_name_rows rid name
                       (leaderboards (core s)));
          contents_log := contents_log s |})
  | GhGetRepoContents inst repo path =>
      (repo_contents host (gh_log (core s)) (contents_log s) inst repo path,
       {| core := core s;
          contents_log := (contents_log s ++ [(inst, repo, path)])%list |})
  end.

(** A coroutine of the entry point run to its end. *)
Fixpoint perform {A : Type} (t : task A) (s : Site) : result A * Site :=
  match t with
  | Done a => (Ok a, s)
  | Fail e => (Err e, s)
  | Await c k => let (r, s') := reg_exec c s in perform (k r) s'
  end.

End Registration.

(** ** db.py: the leaderboard queries *)

Definition get_leaderboard_by_repo_id (repo_id : json)
  : task (option Leaderboard) :=
  (n <-! as_int repo_id ;;
   ask (DbGetLeaderboardByRepoId n))%task.

Definition create_leaderboard (repo_id name inst : json) : task Leaderboard :=
  (n <-! as_int repo_id ;;
   s <-! as_str name ;;
   i <-! as_int inst ;;
   ask (DbCreateLeaderboard n s i))%task.

Definition update_leaderboard_repo_name (repo_id name : json) : task unit :=
  (s <-! as_str name ;;
   n <-! as_int repo_id ;;
   ask (DbUpdateLeaderboardRepoName n s))%task.

(** ** handlers/installation.py *)

(** [k in d] for the payload, which is a dictionary where it is asked. *)
Definition has_key (d : json) (k : string) : bool :=
  match d with
  | JObj kv => match Py.assoc k kv with Some _ => true | None => false end
  | _ => false
  end.

(** [contents is not None] *)
Definition is_not_none (v : json) : bool :=
  match v with
  | JNull => false
  | _ => true
  end.

(** [check_is_leaderboard] *)
Definition check_is_leaderboard (inst name : json) : task bool :=
  catch
    (contents <- ask (GhGetRepoContents inst name
                        ".github/workflows/runner.yml") ;;
     Done (is_not_none contents))%task
    (fun _ => Done false).

Section Installation.

Variable lib : PyLib.

(** The loop of [handle_installation] over [repos], with the list
    [registered] built so far. *)
Fixpoint register_repos (inst : json) (repos registered : list json)
  : task (list json) :=
  match repos with
  | [] => Done registered
  | repo :: rest =>
      (fork <-! Py.get repo "fork" (JBool false) ;;
       if Py.truthy fork then register_repos inst rest registered else
       name <-! Py.getitem repo "full_name" ;;
       repo_id <-! Py.getitem repo "id" ;;
       has_runner <- check_is_leaderboard inst name ;;
       if negb has_runner then register_repos inst rest registered else
       existing <- get_leaderboard_by_repo_id repo_id ;;
       match existing with
       | Some l =>
           if Py.ne_str name (repo_full_name l)
           then
             _ <- update_leaderboard_repo_name repo_id name ;;
             register_repos inst rest registered
           else register_repos inst rest registered
       | None =>
           _ <- create_leaderboard repo_id name inst ;;
           register_repos inst rest (registered ++ [name])%list
       end)%task
  end.

Definition registered_ok (registered : list json) : json :=
  JObj [("status", JStr Status.OK); ("registered", JArr registered)].

(** [handle_installation] *)
Definition handle_installation (payload : json) : task json :=
  (action <-! Py.get payload "action" JNull ;;
   if negb (Py.eq_str action "created" || Py.eq_str action "added")
   then Done (ignored ("action=" ++ fstr lib action)) else
   installation <-! Py.getitem payload "installation" ;;
   inst <-! Py.getitem installation "id" ;;
   if has_key payload "repositories" then
     repos <-! Py.getitem payload "repositories" ;;
     items <-! Py.iter repos ;;
     registered <- register_repos inst items [] ;;
     Done (registered_ok registered)
   else if has_key payload "repositories_added" then
     repos <-! Py.getitem payload "repositories_added" ;;
     items <-! Py.iter repos ;;
     registered <- register_repos inst items [] ;;
     Done (registered_ok registered)
   else Done (ignored "no repositories"))%task.

(** ** webhooks.py *)

Definition handlers : list (string * (json -> task json)) :=
  [("installation", handle_installation);
   ("installation_repositories", handle_installation);
   ("workflow_run", fun payload => embed (handle_workflow_run lib payload))].

Fixpoint handlers_get (event : string)
    (table : list (string * (json -> task json))) : option (json -> task json) :=
  match table with
  | [] => None
  | (k, h) :: rest => if String.eqb k event then Some h else handlers_get event rest
  end.

(** [handle_webhook] *)
Definition handle_webhook (event : string) (payload : json) : task json :=
  match handlers_get event handlers with
  | None => Done (JObj [("status", JStr "ignored"); ("event", JStr event)])
  | Some handler => handler payload
  end.

End Installation.

(** ** main.py: the endpoint *)

Inductive http : Type :=
| JSONResponse (content : json) (status_code : Z)
| HTTPException (status_code : Z) (detail : string).

(** [github_webhook], from the call of the handler on: the response, or
    the error response the raised [HTTPException] stands for. *)
Definition github_webhook (lib : PyLib) (host : Hosting)
    (x_github_event : string) (payload : json) : task http :=
  catch
    (result <- handle_webhook lib x_github_event payload ;;
     Done (JSONResponse result 200))%task
    (fun e => Done (HTTPException 500 (str_exn host e))).

(** The site after a read of the runner file of [name], and what
    [check_is_leaderboard] makes of GitHub's answer to it. *)
Definition runner_path : string := ".github/workflows/runner.yml".

Definition after_read (s : Site) (inst name : json) : Site :=
  {| core := core s;
     contents_log := (contents_log s ++ [(inst, name, runner_path)])%list |}.

Definition answers_runner (host : Hosting) (s : Site) (inst name : json)
  : bool :=
  match repo_contents host (gh_log (core s)) (contents_log s) inst name
          runner_path with
  | Ok v => is_not_none v
  | Err _ => false
  end.

(** An entry of the payload's repository list that is a fork. *)
Definition is_fork (repo : json) : bool :=
  match Py.get repo "fork" (JBool false) with
  | Ok v => Py.truthy v
  | Err _ => false
  end.

(** An entry the handler has nothing to do for: a fork, or a repository
    whose id is registered under the name the entry carries. *)
Definition settled (t : list Leaderboard) (repo : json) : Prop :=
  is_fork repo = true \/
  exists fork name n l,
    Py.get repo "fork" (JBool false) = Ok fork /\ Py.truthy fork = false /\
    Py.getitem repo "full_name" = Ok (JStr name) /\
    Py.getitem repo "id" = Ok (JNum n) /\
    get_leaderboard_by_repo_id_row n t = Some l /\
    repo_full_name l = name.

(** An entry for a repository that is not a fork, with its name and id. *)
Definition repository (repo : json) (name : string) (n : Z) : Prop :=
  exists fork,
    Py.get repo "fork" (JBool false) = Ok fork /\ Py.truthy fork = false /\
    Py.getitem repo "full_name" = Ok (JStr name) /\
    Py.getitem repo "id" = Ok (JNum n).

Definition site_with (s : Site) (t : list Leaderboard) : Site :=
  {| core := with_leaderboards (core s) t; contents_log := contents_log s |}.



(** The row [create_leaderboard] inserts in site [s]. *)
Definition new_board (s : Site) (n : Z) (name : string) (i : Z) : Leaderboard :=
  {| lb_id := Z.of_nat (List.length (leaderboards (core s))) + 1;
     github_repo_id := n;
     repo_full_name := name;
     installation_id := i |}.

(** The payload is an installation event to act on: its action is
    [created] or [added] and it names the installation [inst];
    [lists_repositories]: it also lists [items] under [key]. *)
Definition acts_on (payload inst : json) : Prop :=
  (exists action,
      Py.get payload "action" JNull = Ok action /\
      (Py.eq_str action "created" || Py.eq_str action "added") = true) /\
  (exists installation,
      Py.getitem payload "installation" = Ok installation /\
      Py.getitem installation "id" = Ok inst).

Definition lists_repositories (payload : json) (key : string)
    (inst : json) (items : list json) : Prop :=
  acts_on payload inst /\ Py.getitem payload key = Ok (JArr items).

(** The small deployment, continued: a library whose JSON parser refuses
    the results entry, and the hosting of the entry point.  GitHub holds a
    runner file in every repository but [plain/repo], and fails on
    [broken/repo]. *)
Definition broken_lib : PyLib :=
  {| zip_open := zip_open Toy.lib;
     json_loads := fun b =>
       match b with
       | [Byte.x01] => Err (LibraryError "JSONDecodeError")
       | _ => Toy.loads b
       end;
     json_dumps := json_dumps Toy.lib;
     json_dumps_indent2 := json_dumps_indent2 Toy.lib;
     decode_utf8 := decode_utf8 Toy.lib;
     repr := repr Toy.lib |}.

Definition toy_contents (log : list gh_call) (reads : list (json * json * string))
    (inst repo : json) (path : string) : result json :=
  match repo with
  | JStr "broken/repo" => Err (GithubError "Not Found")
  | JStr "plain/repo" => Ok JNull
  | _ => Ok (JObj [("name", JStr "runner.yml")])
  end.

Definition toy_host : Hosting :=
  {| services := Toy.svc false;
     repo_contents := toy_contents;
     repo_id_unique := true;
     str_exn := fun e =>
       match e with
       | KeyError k => "'" ++ k ++ "'"
       | _ => "error"
       end |}.

Definition toy_site : Site := {| core := Toy.world; contents_log := [] |}.

Definition toy_repo (n : Z) (name : string) (fork : bool) : json :=
  JObj [("id", JNum n); ("full_name", JStr name); ("fork", JBool fork)].

Definition toy_installation (action : string) (repos : list json) : json :=
  JObj [("action", JStr action);
        ("installation", JObj [("id", JNum 5)]);
        ("repositories", JArr repos)].

(** The installation event of the examples: a fork, a new leaderboard, a
    repository without runner file, one GitHub fails on, and the registered
    leaderboard under a new name. *)
Definition toy_event : json :=
  toy_installation "created"
    [toy_repo 7 "fork/repo" true;
     toy_repo 8 "new/board" false;
     toy_repo 9 "plain/repo" false;
     toy_repo 10 "broken/repo" false;
     toy_repo 1001 "renamed/repo" false].

(** * Properties *)

Unset Implicit Arguments.

(** ** Strings *)

Example split_on_examples :
  Py.split_on "/" "owner/repo/.github/workflows/runner.yml"
  = ["owner"; "repo"; ".github"; "workflows"; "runner.yml"] /\
  Py.split_on "/" "a//b" = ["a"; ""; "b"] /\
  Py.split_on "/" "/repo" = [""; "repo"] /\
  Py.split_on "/" "runner.yml" = ["runner.yml"] /\
  Py.split_on "/" "" = [""].
Proof. repeat split. Qed.

Example endswith_examples :
  Py.endswith "run/results.json" "results.json" = true /\
  Py.endswith "results.json" "results.json" = true /\
  Py.endswith "results.json.bak" "results.json" = false /\
  Py.endswith "s.json" "results.json" = false /\
  Py.endswith "anything" "" = true.
Proof. repeat split. Qed.

Example str_examples :
  Py.str_int 42 = "42" /\ Py.str_int 0 = "0" /\ Py.str_int (-7) = "-7" /\
  Py.slice_to 15 "abc" = "abc" /\
  Py.replace_char ":" "-" "03:04:05" = "03-04-05".
Proof. repeat split. Qed.

Lemma endswith_refl (s : string) : Py.endswith s s = true.
Proof. destruct s; cbn [Py.endswith]; rewrite String.eqb_refl; reflexivity. Qed.

Lemma endswith_length (s x : string) :
  Py.endswith s x = true -> (String.length x <= String.length s)%nat.
Proof.
  induction s as [|c s IH]; cbn [Py.endswith]; intros H.
  - rewrite orb_false_r in H. apply String.eqb_eq in H. subst x. simpl. lia.
  - apply orb_true_iff in H. destruct H as [H|H].
    + apply String.eqb_eq in H. subst x. simpl. lia.
    + specialize (IH H). simpl. lia.
Qed.

(** Of two endings of one string the shorter ends the longer. *)
Lemma endswith_nested (s x y : string) :
  Py.endswith s x = true -> Py.endswith s y = true ->
  (String.length x <= String.length y)%nat -> Py.endswith y x = true.
Proof.
  induction s as [|c s IH]; cbn [Py.endswith]; intros Hx Hy Hlen.
  - rewrite orb_false_r in Hx, Hy.
    apply String.eqb_eq in Hx, Hy. subst. reflexivity.
  - apply orb_true_iff in Hx. apply orb_true_iff in Hy.
    destruct Hx as [Hx|Hx], Hy as [Hy|Hy].
    + apply String.eqb_eq in Hx, Hy. subst. apply endswith_refl.
    + apply String.eqb_eq in Hx. subst x.
      apply endswith_length in Hy. simpl in Hlen. lia.
    + apply String.eqb_eq in Hy. subst y. cbn [Py.endswith]. rewrite Hx.
      apply orb_true_r.
    + auto.
Qed.

(** No name ends with two of the three document names. *)
Lemma endswith_exclusive (name x y : string) :
  (String.length x <= String.length y)%nat ->
  Py.endswith y x = false ->
  Py.endswith name x = true -> Py.endswith name y = false.
Proof.
  intros Hlen Hno Hx. destruct (Py.endswith name y) eqn:Hy; [|reflexivity].
  rewrite (endswith_nested _ _ _ Hx Hy Hlen) in Hno. discriminate.
Qed.

(** A string without the separator is one piece; a separator after such a
    string ends the first piece. *)
Lemma split_on_cons (sep : ascii) (a b : string) :
  has_char sep a = false ->
  Py.split_on sep (a ++ String sep b) = a :: Py.split_on sep b.
Proof.
  induction a as [|d a IH]; simpl; intros H.
  - rewrite Ascii.eqb_refl. reflexivity.
  - apply orb_false_iff in H. destruct H as [Hd Ha].
    rewrite Hd, (IH Ha). reflexivity.
Qed.

Lemma split_on_single (sep : ascii) (a : string) :
  has_char sep a = false -> Py.split_on sep a = [a].
Proof.
  induction a as [|d a IH]; simpl; intros H; [reflexivity|].
  apply orb_false_iff in H. destruct H as [Hd Ha].
  rewrite Hd, (IH Ha). reflexivity.
Qed.

Lemma split_on_nonempty (sep : ascii) (s : string) : Py.split_on sep s <> [].
Proof.
  destruct s as [|c s]; simpl; [discriminate|].
  destruct (Ascii.eqb c sep); [discriminate|].
  destruct (Py.split_on sep s); discriminate.
Qed.

(** ** Running programs *)

Section Runs.

Variable lib : PyLib.
Variable svc : Services.

Lemma run_bind {A B : Type} (m : prog A) (f : A -> prog B) (w : World) :
  run svc (bind m f) w =
  match run svc m w with
  | (Ok a, w') => run svc (f a) w'
  | (Err e, w') => (Err e, w')
  end.
Proof.
  revert w. induction m as [a|e|c k IH]; intros w; simpl; try reflexivity.
  destruct (exec svc c w) as [[r|e] w']; [apply IH|reflexivity].
Qed.

Lemma run_await_db_leaderboard (name : string) (w : World) :
  run svc (get_leaderboard_by_repo_name name) w =
  (Ok (get_leaderboard_by_repo_name_row name (leaderboards w)), w).
Proof. reflexivity. Qed.

Lemma run_get_submission (n : Z) (w : World) :
  run svc (get_submission_by_run_id (JNum n)) w =
  (Ok (get_submission_by_run_id_row n (submissions w)), w).
Proof. reflexivity. Qed.

End Runs.

(** ** The leaderboard resolver *)

Section Resolver.

Variable svc : Services.

Lemma find_leaderboard_loop_miss (w : World) (ref : json) (rest : list json) :
  misses (leaderboards w) ref ->
  run svc (find_leaderboard_loop (ref :: rest)) w =
  run svc (find_leaderboard_loop rest) w.
Proof.
  intros (path & Hpath & Hmiss).
  cbn [find_leaderboard_loop]. rewrite Hpath. cbn [attempt Py.split].
  destruct (List.length (Py.split_on "/" path) <? 2)%nat eqn:Hlen.
  - reflexivity.
  - destruct Hmiss as [Hshort|Hnone].
    + apply Nat.ltb_ge in Hlen. lia.
    + rewrite run_bind, run_await_db_leaderboard.
      unfold key_of in Hnone. rewrite Hnone. reflexivity.
Qed.

Lemma find_leaderboard_loop_hit (w : World) (ref : json) (rest : list json)
    (lb : Leaderboard) :
  hits (leaderboards w) ref lb ->
  run svc (find_leaderboard_loop (ref :: rest)) w = (Ok (Some lb), w).
Proof.
  intros (path & Hpath & Hlen & Hsome).
  cbn [find_leaderboard_loop]. rewrite Hpath. cbn [attempt Py.split].
  apply Nat.ltb_ge in Hlen. rewrite Hlen.
  rewrite run_bind, run_await_db_leaderboard.
  unfold key_of in Hsome. rewrite Hsome. reflexivity.
Qed.

Lemma find_leaderboard_loop_skip (w : World) (pre rest : list json) :
  Forall (misses (leaderboards w)) pre ->
  run svc (find_leaderboard_loop (pre ++ rest)%list) w =
  run svc (find_leaderboard_loop rest) w.
Proof.
  induction 1 as [|ref pre Href _ IH]; [reflexivity|].
  rewrite <- app_comm_cons, find_leaderboard_loop_miss; assumption.
Qed.

(** The resolver reads the table and changes nothing. *)
Lemma find_leaderboard_loop_world (w : World) (refs : list json) :
  snd (run svc (find_leaderboard_loop refs) w) = w.
Proof.
  induction refs as [|ref rest IH]; [reflexivity|].
  cbn [find_leaderboard_loop].
  destruct (Py.getitem ref "path") as [path|e]; [|reflexivity].
  cbn [attempt]. destruct (Py.split path "/") as [parts|e]; [|reflexivity].
  cbn [attempt]. destruct (List.length parts <? 2)%nat; [exact IH|].
  rewrite run_bind, run_await_db_leaderboard.
  destruct (get_leaderboard_by_repo_name_row _ _); [reflexivity|exact IH].
Qed.

Lemma find_leaderboard_world (w : World) (referenced : json) :
  snd (run svc (find_leaderboard referenced) w) = w.
Proof.
  unfold find_leaderboard.
  destruct (Py.iter referenced) as [refs|e]; [|reflexivity].
  apply find_leaderboard_loop_world.
Qed.

(** C5: resolution walks the references in the order given; the references
    before the first one that names a registered leaderboard are passed
    over (a path of a single piece is skipped, a pair of pieces is looked up
    as [owner/repo] by exact full name), that leaderboard is returned
    whatever follows it in the list, and a list of references that all miss
    resolves to [None], which is a result and not an exception. *)
Theorem find_leaderboard_first_match :
  (forall (w : World) (pre post : list json) (ref : json) (lb : Leaderboard),
      Forall (misses (leaderboards w)) pre ->
      hits (leaderboards w) ref lb ->
      run svc (find_leaderboard (JArr (pre ++ ref :: post)%list)) w
      = (Ok (Some lb), w)) /\
  (forall (w : World) (refs : list json),
      Forall (misses (leaderboards w)) refs ->
      run svc (find_leaderboard (JArr refs)) w = (Ok None, w)).
Proof.
  split.
  - intros w pre post ref lb Hpre Hhit.
    unfold find_leaderboard. cbn [Py.iter attempt].
    rewrite find_leaderboard_loop_skip by assumption.
    apply find_leaderboard_loop_hit. assumption.
  - intros w refs Hall.
    unfold find_leaderboard. cbn [Py.iter attempt].
    rewrite <- (app_nil_r refs).
    rewrite find_leaderboard_loop_skip by assumption. reflexivity.
Qed.

(** C10: the resolver asks nothing of a path beyond its first two pieces.
    A bare [owner/repo] and [owner/repo/] followed by any further text
    (with or without a [.github/workflows] part) are looked up under the
    same key [owner/repo], and both resolve to the leaderboard registered
    under that name. *)
Theorem find_leaderboard_two_segments
    (w : World) (owner repo tail : string) (post : list json) (lb : Leaderboard) :
  has_char "/" owner = false ->
  has_char "/" repo = false ->
  get_leaderboard_by_repo_name_row (owner ++ "/" ++ repo) (leaderboards w)
  = Some lb ->
  run svc (find_leaderboard
             (JArr (JObj [("path", JStr (owner ++ "/" ++ repo))] :: post))) w
  = (Ok (Some lb), w) /\
  run svc (find_leaderboard
             (JArr (JObj [("path", JStr (owner ++ "/" ++ repo ++ "/" ++ tail))]
                      :: post))) w
  = (Ok (Some lb), w).
Proof.
  intros Ho Hr Hlb.
  assert (Hbare : Py.split_on "/" (owner ++ "/" ++ repo) = [owner; repo]).
  { change (owner ++ "/" ++ repo) with (owner ++ String "/" repo).
    rewrite split_on_cons, split_on_single by assumption. reflexivity. }
  assert (Hfull : Py.split_on "/" (owner ++ "/" ++ repo ++ "/" ++ tail)
                  = owner :: repo :: Py.split_on "/" tail).
  { change (owner ++ "/" ++ repo ++ "/" ++ tail)
      with (owner ++ String "/" (repo ++ String "/" tail)).
    rewrite split_on_cons, split_on_cons by assumption. reflexivity. }
  split; unfold find_leaderboard; cbn [Py.iter attempt];
    apply find_leaderboard_loop_hit; eexists; (split; [reflexivity|]).
  - rewrite Hbare. split; [simpl; lia|exact Hlb].
  - rewrite Hfull. split; [simpl; lia|exact Hlb].
Qed.

End Resolver.

(** ** The guards of the pipeline *)

Section Guards.

Variable lib : PyLib.
Variable svc : Services.

(** C8: the guards are tried in a fixed order and each answers with its own
    reason.  An action other than [completed] is ignored as
    [not completed]; a completed run whose conclusion is not [success] is
    ignored with the conclusion written into the reason; a successful run
    whose list of referenced workflows is empty or absent is ignored as
    [no reusable workflows]; a run whose references resolve to no
    leaderboard is ignored as [no registered leaderboard].  In each case
    the world is left as it was: no submission is recorded and GitHub is
    not called. *)
Theorem guards_in_order (payload : json) (w : World) :
  (forall action,
      Py.get payload "action" JNull = Ok action ->
      Py.ne_str action "completed" = true ->
      run svc (handle_workflow_run lib payload) w
      = (Ok (ignored "not completed"), w)) /\
  (forall wr conclusion,
      completed payload ->
      Py.getitem payload "workflow_run" = Ok wr ->
      Py.get wr "conclusion" JNull = Ok conclusion ->
      Py.ne_str conclusion "success" = true ->
      run svc (handle_workflow_run lib payload) w
      = (Ok (ignored ("conclusion=" ++ fstr lib conclusion)), w)) /\
  (forall wr run_id purple_repo referenced,
      completed payload ->
      Py.getitem payload "workflow_run" = Ok wr ->
      succeeded wr ->
      identified payload wr run_id purple_repo ->
      Py.get wr "referenced_workflows" (JArr []) = Ok referenced ->
      Py.truthy referenced = false ->
      run svc (handle_workflow_run lib payload) w
      = (Ok (ignored "no reusable workflows"), w)) /\
  (forall run_id purple_repo referenced,
      run_event payload run_id purple_repo referenced ->
      fst (run svc (find_leaderboard referenced) w) = Ok None ->
      run svc (handle_workflow_run lib payload) w
      = (Ok (ignored "no registered leaderboard"), w)).
Proof.
  repeat split.
  - intros action Ha Hne. unfold handle_workflow_run.
    rewrite Ha. cbn [attempt]. rewrite Hne. reflexivity.
  - intros r c (action & Ha & Hact) Hrun Hc Hne. unfold handle_workflow_run.
    rewrite Ha. cbn [attempt]. rewrite Hact, Hrun. cbn [attempt].
    rewrite Hc. cbn [attempt]. rewrite Hne. reflexivity.
  - intros r rid repo refd (action & Ha & Hact) Hrun (c & Hc & Hsucc)
      (Hid & repository & Hrepo & Hfull) Href Hfalsy.
    unfold handle_workflow_run.
    rewrite Ha. cbn [attempt]. rewrite Hact, Hrun. cbn [attempt].
    rewrite Hc. cbn [attempt]. rewrite Hsucc, Hid. cbn [attempt].
    rewrite Hrepo. cbn [attempt]. rewrite Hfull. cbn [attempt].
    rewrite Href. cbn [attempt]. rewrite Hfalsy. reflexivity.
  - intros rid repo refd
      (r & (action & Ha & Hact) & Hrun & (c & Hc & Hsucc)
         & (Hid & repository & Hrepo & Hfull) & Href & Htruthy) Hnone.
    unfold handle_workflow_run.
    rewrite Ha. cbn [attempt]. rewrite Hact, Hrun. cbn [attempt].
    rewrite Hc. cbn [attempt]. rewrite Hsucc, Hid. cbn [attempt].
    rewrite Hrepo. cbn [attempt]. rewrite Hfull. cbn [attempt].
    rewrite Href. cbn [attempt]. rewrite Htruthy. cbn [negb].
    rewrite run_bind.
    pose proof (find_leaderboard_world svc w refd) as Hw.
    destruct (run svc (find_leaderboard refd) w) as [res w'].
    cbn [fst snd] in *. subst w' res. reflexivity.
Qed.

End Guards.

(** ** The steps of the pipeline *)

Section Steps.

Variable lib : PyLib.
Variable svc : Services.

Lemma logged_logged (w : World) (a b : list gh_call) :
  logged (logged w a) b = logged w (a ++ b)%list.
Proof. unfold logged; cbn. rewrite app_assoc. reflexivity. Qed.

Lemma resolved (w : World) (referenced : json) (r : result (option Leaderboard)) :
  fst (run svc (find_leaderboard referenced) w) = r ->
  run svc (find_leaderboard referenced) w = (r, w).
Proof.
  intros H. rewrite (surjective_pairing (run svc _ w)), H.
  rewrite find_leaderboard_world. reflexivity.
Qed.

Lemma download_loop_other (w : World) (inst repo a : json) (rest : list json) :
  other_artifact a ->
  run svc (download_loop inst repo (a :: rest)) w =
  run svc (download_loop inst repo rest) w.
Proof.
  intros (name & Hname & Hne). cbn [download_loop].
  rewrite Hname. cbn [attempt]. rewrite Hne. reflexivity.
Qed.

Lemma download_loop_skip (w : World) (inst repo : json) (pre rest : list json) :
  Forall other_artifact pre ->
  run svc (download_loop inst repo (pre ++ rest)%list) w =
  run svc (download_loop inst repo rest) w.
Proof.
  induction 1 as [|a pre Ha _ IH]; [reflexivity|].
  rewrite <- app_comm_cons, download_loop_other; assumption.
Qed.

Lemma download_loop_hit (w : World) (inst repo a aid : json) (post : list json) :
  submission_artifact a aid ->
  run svc (download_loop inst repo (a :: post)) w =
  (github_client svc (gh_log w) (DownloadArtifact inst repo aid),
   logged w [DownloadArtifact inst repo aid]).
Proof.
  intros (name & Hname & Heq & Hid). cbn [download_loop].
  rewrite Hname. cbn [attempt]. rewrite Heq, Hid. cbn [attempt await run exec].
  destruct (github_client svc (gh_log w) (DownloadArtifact inst repo aid));
    reflexivity.
Qed.

Lemma download_none (w : World) (inst repo rid : json) (items : list json) :
  lists svc w inst repo rid items ->
  Forall other_artifact items ->
  run svc (download_submission_artifact inst repo rid) w =
  (Ok None, logged w [GetArtifacts inst repo rid]).
Proof.
  intros (arts & Hgh & Hget) Hall. unfold download_submission_artifact.
  cbn [bind await run exec]. rewrite Hgh, Hget. cbn [attempt Py.iter].
  rewrite <- (app_nil_r items), download_loop_skip by assumption.
  reflexivity.
Qed.

Lemma download_hit (w : World) (inst repo rid a aid : json)
    (pre post : list json) :
  lists svc w inst repo rid (pre ++ a :: post)%list ->
  Forall other_artifact pre ->
  submission_artifact a aid ->
  run svc (download_submission_artifact inst repo rid) w =
  (github_client svc (gh_log w ++ [GetArtifacts inst repo rid])%list
     (DownloadArtifact inst repo aid),
   logged w [GetArtifacts inst repo rid; DownloadArtifact inst repo aid]).
Proof.
  intros (arts & Hgh & Hget) Hpre Ha. unfold download_submission_artifact.
  cbn [bind await run exec]. rewrite Hgh, Hget. cbn [attempt Py.iter].
  rewrite download_loop_skip by assumption.
  rewrite (download_loop_hit _ _ _ _ _ _ Ha).
  fold (logged w [GetArtifacts inst repo rid]).
  rewrite logged_logged. reflexivity.
Qed.

Lemma run_record_submission (w : World) (n : Z) (lrepo repo st : string)
    (err : option string) (url : json) (url' : option string) (res : json) :
  as_opt_str url = Ok url' ->
  get_submission_by_run_id_row n (submissions w) = None ->
  run svc (record_submission lib (JNum n) lrepo (JStr repo) st err url res) w =
  (Ok tt, inserted w (recorded lib w n lrepo repo st err url' res)).
Proof.
  intros Hurl Hnone. unfold record_submission, create_submission.
  cbn [Py.split attempt as_int as_str]. rewrite Hurl.
  cbn [attempt bind await run exec]. rewrite Hnone, andb_false_r.
  reflexivity.
Qed.

(** The publisher calls GitHub and touches neither table. *)
Lemma create_submission_pr_world (w : World) (lb : Leaderboard)
    (manifest results : json) (scenario : string) (rid : json) :
  exists cs,
    snd (run svc (create_submission_pr lib lb manifest results scenario rid) w)
    = logged w cs.
Proof.
  unfold create_submission_pr.
  destruct (Py.getitem manifest "purple_agent_owner") as [owner|e];
    [|exists []; unfold logged; cbn; rewrite app_nil_r; destruct w; reflexivity].
  cbn [attempt].
  destruct (Py.getitem manifest "timestamp") as [ts|e];
    [|exists []; unfold logged; cbn; rewrite app_nil_r; destruct w; reflexivity].
  cbn [attempt].
  destruct (submission_timestamp ts) as [stamp|e];
    [|exists []; unfold logged; cbn; rewrite app_nil_r; destruct w; reflexivity].
  cbn [attempt bind await run exec].
  match goal with
  | |- context [github_client svc (gh_log w) ?c] =>
      destruct (github_client svc (gh_log w) c) as [[]|e];
      [|exists [c]; reflexivity]
  end.
  cbn [bind run exec gh_log].
  match goal with
  | |- context [github_client svc (gh_log w ++ [?c1])%list ?c] =>
      destruct (github_client svc (gh_log w ++ [c1])%list c) as [[]|e];
      [|exists [c1; c]; unfold logged; cbn; rewrite <- app_assoc; reflexivity]
  end.
  destruct (format_pr_body lib manifest results) as [body|e];
    [|eexists [_; _]; unfold logged; cbn; rewrite <- app_assoc; reflexivity].
  cbn [attempt bind run exec gh_log].
  match goal with
  | |- context [github_client svc ?l ?c] =>
      destruct (github_client svc l c) as [pr|e];
      [|eexists [_; _; _]; unfold logged; cbn;
        rewrite <- !app_assoc; reflexivity]
  end.
  destruct (Py.getitem pr "html_url") as [url|e];
    eexists [_; _; _]; unfold logged; cbn; rewrite <- !app_assoc; reflexivity.
Qed.

End Steps.

(** ** The pipeline past its guards *)

(** Walks the handler through its guards, given what the payload carries. *)
Ltac pass_guards Hev :=
  destruct Hev as (wr & (action & Ha & Hact) & Hwr & (c & Hc & Hsucc)
                     & (Hid & repository & Hrepo & Hfull) & Href & Htruthy);
  unfold handle_workflow_run;
  rewrite Ha; cbn [attempt]; rewrite Hact, Hwr; cbn [attempt];
  rewrite Hc; cbn [attempt]; rewrite Hsucc, Hid; cbn [attempt];
  rewrite Hrepo; cbn [attempt]; rewrite Hfull; cbn [attempt];
  rewrite Href; cbn [attempt]; rewrite Htruthy; cbn [negb].

(** Continues to the download, for a run not seen before. *)
Ltac pass_checks svc Hfresh :=
  let Hev := fresh "Hev" in
  destruct Hfresh as (referenced & Hev & (installation & Hinst & Hinstid)
                        & Hlb & Hnone);
  pass_guards Hev;
  rewrite run_bind, (resolved svc _ _ _ Hlb);
  rewrite run_bind, run_get_submission, Hnone;
  rewrite Hinst; cbn [attempt]; rewrite Hinstid; cbn [attempt].

Section Outcomes.

Variable lib : PyLib.
Variable svc : Services.

(** C4: a fresh run whose artifact listing holds no entry named exactly
    [agentbeats-submission] is recorded as [failed] with the message
    [No artifact found] and answered with the error [no artifact]; only
    the listing was asked of GitHub.  The name is compared as a whole: an
    entry counts only when its name is that very string. *)
Theorem no_artifact_is_failed (payload : json) (w : World) (n : Z)
    (repo : string) (inst : json) (lb : Leaderboard) (items : list json) :
  fresh_run svc payload w n repo inst lb ->
  lists svc w inst (JStr repo) (JNum n) items ->
  Forall other_artifact items ->
  let w1 := logged w [GetArtifacts inst (JStr repo) (JNum n)] in
  let row := recorded lib w1 n (repo_full_name lb) repo
               "failed" (Some "No artifact found") None JNull in
  run svc (handle_workflow_run lib payload) w
  = (Ok (error "no artifact"), inserted w1 row) /\
  status row = "failed" /\
  error_message row = Some "No artifact found" /\
  (forall name, Py.eq_str name "agentbeats-submission" = true <->
                name = JStr "agentbeats-submission").
Proof.
  intros Hfresh Hlists Hall w1 row. repeat split.
  - pass_checks svc Hfresh.
    rewrite run_bind, (download_none svc _ _ _ _ _ Hlists Hall).
    rewrite run_bind.
    rewrite (run_record_submission lib svc (logged w _) _ _ _ _ _
               JNull None _); [reflexivity..|exact Hnone].
  - destruct name as [| | |s| |]; cbn [Py.eq_str]; try discriminate.
    intros H. apply String.eqb_eq in H. subst s. reflexivity.
  - intros ->. reflexivity.
Qed.

(** Shared by the two rejections: a manifest whose declared target is not
    the full name of the resolved leaderboard. *)
Lemma rejects_mismatch (payload : json) (w : World) (n : Z)
    (repo : string) (inst aid : json) (lb : Leaderboard) (zip : bytes)
    (results manifest : json) (scenario : string) (target : json) :
  fresh_run svc payload w n repo inst lb ->
  delivers svc w inst (JStr repo) (JNum n) aid zip ->
  parse_artifact lib zip = Ok (results, manifest, scenario) ->
  Py.get manifest "target_leaderboard" JNull = Ok target ->
  Py.ne_str target (repo_full_name lb) = true ->
  let w1 := logged w [GetArtifacts inst (JStr repo) (JNum n);
                      DownloadArtifact inst (JStr repo) aid] in
  run svc (handle_workflow_run lib payload) w
  = (Ok (rejected "target mismatch"),
     inserted w1 (recorded lib w1 n (repo_full_name lb) repo
                    "rejected" (Some "Target mismatch") None JNull)).
Proof.
  intros Hfresh ((pre & a & post & Hlists & Hpre & Hart) & Hzip & Hne)
    Hparse Htarget Hdiff w1.
  pass_checks svc Hfresh.
  rewrite run_bind, (download_hit svc _ _ _ _ _ _ _ _ Hlists Hpre Hart), Hzip.
  destruct zip as [|b zip]; [contradiction|].
  rewrite Hparse. cbn [attempt]. rewrite Htarget. cbn [attempt]. rewrite Hdiff.
  rewrite run_bind.
  rewrite (run_record_submission lib svc (logged w _) _ _ _ _ _
             JNull None _); [reflexivity..|exact Hnone].
Qed.

(** C3: a fresh run whose manifest declares a target other than the full
    name of the resolved leaderboard is recorded as [rejected] with the
    message [Target mismatch], with no PR number, PR URL or results, and
    answered with the rejection [target mismatch]; GitHub was asked for
    the listing and the download and nothing else, so no branch, commit or
    pull request exists for the run. *)
Theorem target_mismatch_is_rejected (payload : json) (w : World) (n : Z)
    (repo : string) (inst aid : json) (lb : Leaderboard) (zip : bytes)
    (results manifest : json) (scenario : string) (target : json) :
  fresh_run svc payload w n repo inst lb ->
  delivers svc w inst (JStr repo) (JNum n) aid zip ->
  parse_artifact lib zip = Ok (results, manifest, scenario) ->
  Py.get manifest "target_leaderboard" JNull = Ok target ->
  Py.ne_str target (repo_full_name lb) = true ->
  let w1 := logged w [GetArtifacts inst (JStr repo) (JNum n);
                      DownloadArtifact inst (JStr repo) aid] in
  let row := recorded lib w1 n (repo_full_name lb) repo
               "rejected" (Some "Target mismatch") None JNull in
  run svc (handle_workflow_run lib payload) w
  = (Ok (rejected "target mismatch"), inserted w1 row) /\
  status row = "rejected" /\
  error_message row = Some "Target mismatch" /\
  pr_number row = None /\ pr_url row = None /\ results_json row = None /\
  gh_log (inserted w1 row)
  = (gh_log w ++ [GetArtifacts inst (JStr repo) (JNum n);
                  DownloadArtifact inst (JStr repo) aid])%list.
Proof.
  intros Hfresh Hdel Hparse Htarget Hdiff w1 row.
  split; [|repeat split].
  exact (rejects_mismatch payload w n repo inst aid lb zip results
           manifest scenario target Hfresh Hdel Hparse Htarget Hdiff).
Qed.

(** C9: a manifest without a [target_leaderboard] field, such as the empty
    manifest of an archive with no [manifest.json], raises no missing-field
    error at the target check: the absent field reads as [None], which
    differs from every full name, and the run is recorded and answered as
    a target mismatch. *)
Theorem missing_target_is_rejected (payload : json) (w : World) (n : Z)
    (repo : string) (inst aid : json) (lb : Leaderboard) (zip : bytes)
    (results : json) (fields : list (string * json)) (scenario : string) :
  fresh_run svc payload w n repo inst lb ->
  delivers svc w inst (JStr repo) (JNum n) aid zip ->
  parse_artifact lib zip = Ok (results, JObj fields, scenario) ->
  Py.assoc "target_leaderboard" fields = None ->
  let w1 := logged w [GetArtifacts inst (JStr repo) (JNum n);
                      DownloadArtifact inst (JStr repo) aid] in
  let row := recorded lib w1 n (repo_full_name lb) repo
               "rejected" (Some "Target mismatch") None JNull in
  run svc (handle_workflow_run lib payload) w
  = (Ok (rejected "target mismatch"), inserted w1 row) /\
  status row = "rejected" /\
  error_message row = Some "Target mismatch".
Proof.
  intros Hfresh Hdel Hparse Habsent w1 row.
  split; [|split; reflexivity].
  apply (rejects_mismatch payload w n repo inst aid lb zip results
           (JObj fields) scenario JNull Hfresh Hdel Hparse).
  - cbn [Py.get]. rewrite Habsent. reflexivity.
  - reflexivity.
Qed.

(** C1, as the code has it: for a fresh run whose artifact is delivered,
    whose manifest declares the resolved leaderboard and whose publication
    returns a URL, the pipeline adds exactly one submission, with status
    [submitted] and that URL, and answers [ok] with the same URL.  The
    stored results are the serialised results document when the document
    is non-empty and absent when it is empty. *)
Theorem success_is_submitted (payload : json) (w w3 : World) (n : Z)
    (repo : string) (inst aid : json) (lb : Leaderboard) (zip : bytes)
    (results manifest : json) (scenario : string) (target : json)
    (url : string) :
  fresh_run svc payload w n repo inst lb ->
  delivers svc w inst (JStr repo) (JNum n) aid zip ->
  parse_artifact lib zip = Ok (results, manifest, scenario) ->
  Py.get manifest "target_leaderboard" JNull = Ok target ->
  Py.ne_str target (repo_full_name lb) = false ->
  run svc (create_submission_pr lib lb manifest results scenario (JNum n))
    (logged w [GetArtifacts inst (JStr repo) (JNum n);
               DownloadArtifact inst (JStr repo) aid])
  = (Ok (JStr url), w3) ->
  let row := recorded lib w3 n (repo_full_name lb) repo
               "submitted" None (Some url) results in
  run svc (handle_workflow_run lib payload) w
  = (Ok (ok (JStr url)), inserted w3 row) /\
  submissions (inserted w3 row) = (submissions w ++ [row])%list /\
  status row = "submitted" /\
  pr_url row = Some url /\
  (Py.truthy results = true ->
   results_json row = Some (json_dumps lib results)) /\
  (Py.truthy results = false -> results_json row = None).
Proof.
  intros Hfresh ((pre & a & post & Hlists & Hpre & Hart) & Hzip & Hne)
    Hparse Htarget Hsame Hpub row.
  assert (Hsubs : submissions w3 = submissions w).
  { destruct (create_submission_pr_world lib svc (logged w
      [GetArtifacts inst (JStr repo) (JNum n);
       DownloadArtifact inst (JStr repo) aid]) lb manifest results scenario
      (JNum n)) as [cs Hcs].
    rewrite Hpub in Hcs. cbn [snd] in Hcs. rewrite Hcs. reflexivity. }
  split; [|repeat split].
  - pass_checks svc Hfresh.
    rewrite run_bind, (download_hit svc _ _ _ _ _ _ _ _ Hlists Hpre Hart), Hzip.
    destruct zip as [|b zip]; [contradiction|].
    rewrite Hparse. cbn [attempt]. rewrite Htarget. cbn [attempt]. rewrite Hsame.
    rewrite run_bind, Hpub, run_bind.
    rewrite (run_record_submission lib svc w3 _ _ _ _ _ (JStr url) (Some url) _);
      [reflexivity|reflexivity|]. rewrite Hsubs. exact Hnone.
  - cbn [inserted submissions]. rewrite Hsubs. reflexivity.
  - intros Ht. subst row. unfold recorded. cbn [results_json].
    rewrite Ht. reflexivity.
  - intros Ht. subst row. unfold recorded. cbn [results_json].
    rewrite Ht. reflexivity.
Qed.

(** C2, as the code has it: when a submission is already recorded for the
    run id, whatever its status, a delivery of the completed, successful
    event that runs with no other delivery interleaved is answered
    [ignored] with reason [duplicate] and leaves the world as it was: no
    row is added and GitHub is not called. *)
Theorem recorded_run_is_duplicate (payload : json) (w : World) (n : Z)
    (purple_repo referenced : json) (lb : Leaderboard) (existing : Submission) :
  run_event payload (JNum n) purple_repo referenced ->
  fst (run svc (find_leaderboard referenced) w) = Ok (Some lb) ->
  In existing (submissions w) ->
  workflow_run_id existing = n ->
  run svc (handle_workflow_run lib payload) w = (Ok (ignored "duplicate"), w).
Proof.
  intros Hev Hlb Hin Hrun.
  pass_guards Hev.
  rewrite run_bind, (resolved svc _ _ _ Hlb).
  rewrite run_bind, run_get_submission.
  destruct (get_submission_by_run_id_row n (submissions w)) as [s|] eqn:E;
    [reflexivity|].
  apply (find_none _ _ E) in Hin. cbn beta in Hin.
  rewrite Hrun, Z.eqb_refl in Hin. discriminate.
Qed.

(** A run is the schedule that resumes one coroutine until it ends. *)
Lemma run_step {A : Type} (p : prog A) (w : World) :
  run svc p w = run svc (fst (step svc p w)) (snd (step svc p w)).
Proof.
  destruct p as [a|e|c k]; try reflexivity.
  cbn [run step]. destruct (exec svc c w) as [[r|e] w']; reflexivity.
Qed.

End Outcomes.

(** ** The artifact extractor *)

Lemma endswith_app (prefix suffix : string) :
  Py.endswith (prefix ++ suffix) suffix = true.
Proof.
  induction prefix as [|c prefix IH]; [apply endswith_refl|].
  cbn [append Py.endswith]. rewrite IH. apply orb_true_r.
Qed.

Lemma last_ending_none (suffix : string) (names : list string) :
  last_ending suffix names = None <->
  (forall name, In name names -> Py.endswith name suffix = false).
Proof.
  induction names as [|name rest IH]; cbn [last_ending In].
  - split; [intros _ ? []|reflexivity].
  - destruct (last_ending suffix rest) as [m|].
    + split; [discriminate|]. intros H.
      assert (Some m = None) as Hm by (apply IH; intros; apply H; auto).
      discriminate.
    + destruct (Py.endswith name suffix) eqn:E.
      * split; [discriminate|]. intros H. rewrite H in E by auto. discriminate.
      * split; [|reflexivity]. intros _ x [<-|Hin]; [exact E|].
        apply IH; [reflexivity|exact Hin].
Qed.

Lemma last_ending_some (suffix : string) (names : list string) (m : string) :
  last_ending suffix names = Some m ->
  In m names /\ Py.endswith m suffix = true.
Proof.
  induction names as [|name rest IH]; cbn [last_ending In]; [discriminate|].
  destruct (last_ending suffix rest) as [m'|].
  - intros [= <-]. destruct (IH eq_refl); auto.
  - destruct (Py.endswith name suffix) eqn:E; [|discriminate].
    intros [= <-]. auto.
Qed.

Lemma last_ending_last (suffix name : string) (pre post : list string) :
  Py.endswith name suffix = true ->
  (forall x, In x post -> Py.endswith x suffix = false) ->
  last_ending suffix (pre ++ name :: post)%list = Some name.
Proof.
  intros Hname Hpost. apply last_ending_none in Hpost.
  induction pre as [|x pre IH]; cbn [app last_ending].
  - rewrite Hpost, Hname. reflexivity.
  - rewrite IH. reflexivity.
Qed.

Lemma pick_cons_match {A : Type} (suffix : string) (f : string -> A)
    (default : A) (name : string) (rest : list string) :
  Py.endswith name suffix = true ->
  pick suffix f default (name :: rest) = pick suffix f (f name) rest.
Proof.
  intros E. unfold pick. cbn [last_ending].
  destruct (last_ending suffix rest); [reflexivity|]. rewrite E. reflexivity.
Qed.

Lemma pick_cons_other {A : Type} (suffix : string) (f : string -> A)
    (default : A) (name : string) (rest : list string) :
  Py.endswith name suffix = false ->
  pick suffix f default (name :: rest) = pick suffix f default rest.
Proof.
  intros E. unfold pick. cbn [last_ending].
  destruct (last_ending suffix rest); [reflexivity|]. rewrite E. reflexivity.
Qed.

Section Extractor.

Variable lib : PyLib.
Variable svc : Services.

Lemma parse_entries_pick (zf : ZipFile) (content : string -> bytes)
    (doc : string -> json) (text : string -> string) (names : list string) :
  readable lib zf names content doc text ->
  forall (results manifest : json) (scenario : string),
    parse_entries lib zf names (results, manifest, scenario)
    = Ok (pick "results.json" doc results names,
          pick "manifest.json" doc manifest names,
          pick "scenario.toml" text scenario names).
Proof.
  induction names as [|name rest IH]; intros Hread results manifest scenario;
    [reflexivity|].
  assert (Hrest : readable lib zf rest content doc text)
    by (intros x Hx; apply Hread; right; exact Hx).
  destruct (Hread name (or_introl eq_refl)) as [Hjson Htext].
  cbn [parse_entries].
  destruct (Py.endswith name "results.json") eqn:ER.
  - destruct (Hjson (or_introl eq_refl)) as [Hr Hl]. rewrite Hr.
    cbn [rbind]. rewrite Hl. cbn [rbind]. rewrite (IH Hrest).
    rewrite (pick_cons_match "results.json" doc results name rest ER).
    rewrite !pick_cons_other; [reflexivity| |];
      apply (endswith_exclusive name "results.json");
      solve [cbn; lia | reflexivity | exact ER].
  - destruct (Py.endswith name "manifest.json") eqn:EM.
    + destruct (Hjson (or_intror eq_refl)) as [Hr Hl]. rewrite Hr.
      cbn [rbind]. rewrite Hl. cbn [rbind]. rewrite (IH Hrest).
      rewrite (pick_cons_match "manifest.json" doc manifest name rest EM).
      rewrite !pick_cons_other; [reflexivity| |exact ER].
      apply (endswith_exclusive name "manifest.json");
        solve [cbn; lia | reflexivity | exact EM].
    + destruct (Py.endswith name "scenario.toml") eqn:ES.
      * destruct (Htext eq_refl) as [Hr Hd]. rewrite Hr.
        cbn [rbind]. rewrite Hd. cbn [rbind]. rewrite (IH Hrest).
        rewrite (pick_cons_match "scenario.toml" text scenario name rest ES).
        rewrite !pick_cons_other by assumption. reflexivity.
      * rewrite (IH Hrest). rewrite !pick_cons_other by assumption.
        reflexivity.
Qed.

(** C6: for an archive that opens and whose document entries read and
    parse, extraction returns the parsed results entry, the parsed
    manifest entry and the decoded scenario entry, each found by the
    ending of its name whatever path precedes it (the last such entry
    when several match), and the empty object, the empty object and the
    empty string for a document with no entry.  Extraction is a function
    of the archive bytes: performing it in a coroutine awaits nothing and
    leaves the world as it was. *)
Theorem parse_artifact_documents (zip : bytes) (zf : ZipFile)
    (content : string -> bytes) (doc : string -> json)
    (text : string -> string) :
  zip_open lib zip = Ok zf ->
  readable lib zf (namelist zf) content doc text ->
  parse_artifact lib zip
  = Ok (pick "results.json" doc (JObj []) (namelist zf),
        pick "manifest.json" doc (JObj []) (namelist zf),
        pick "scenario.toml" text "" (namelist zf)) /\
  (forall prefix suffix, Py.endswith (prefix ++ suffix) suffix = true) /\
  (forall w, run svc (attempt (parse_artifact lib zip) Ret) w
             = (parse_artifact lib zip, w)).
Proof.
  intros Hopen Hread. repeat split.
  - unfold parse_artifact. rewrite Hopen. cbn [rbind].
    apply (parse_entries_pick zf content doc text); exact Hread.
  - apply endswith_app.
  - intros w. destruct (parse_artifact lib zip); reflexivity.
Qed.

End Extractor.

(** ** The names the publisher derives *)

Section Publisher.

Variable lib : PyLib.

(** The publisher first creates the branch [agentbeats/submission-<run id>]
    from [main], then commits the three files under
    [submissions/<owner>/<timestamp>], where the timestamp is the first 15
    characters of the manifest's timestamp with [:] and [T] replaced by
    [-]. *)
Lemma publisher_names (lb : Leaderboard) (manifest results : json)
    (scenario : string) (run_id owner : json) (ts : string) :
  Py.getitem manifest "purple_agent_owner" = Ok owner ->
  Py.getitem manifest "timestamp" = Ok (JStr ts) ->
  let branch := "agentbeats/submission-" ++ fstr lib run_id in
  let path := "submissions/" ++ fstr lib owner ++ "/" ++
              Py.slice_to 15 (Py.replace_char "T" "-"
                                (Py.replace_char ":" "-" ts)) in
  exists k,
    create_submission_pr lib lb manifest results scenario run_id
    = Vis (Gh (CreateBranch (installation_id lb) (repo_full_name lb)
                 branch "main")) k /\
    exists k',
      k tt
      = Vis (Gh (CommitFiles (installation_id lb) (repo_full_name lb) branch
                   [(path ++ "/results.json", json_dumps_indent2 lib results);
                    (path ++ "/manifest.json", json_dumps_indent2 lib manifest);
                    (path ++ "/scenario.toml", scenario)]
                   ("[AgentBeats] Submission from " ++ fstr lib owner))) k'.
Proof.
  intros Howner Hts branch path. unfold create_submission_pr.
  rewrite Howner. cbn [attempt]. rewrite Hts.
  cbn [attempt submission_timestamp Py.replace rbind bind await].
  eexists. split; [reflexivity|]. cbn beta. eexists. reflexivity.
Qed.

Lemma branch_name_of_int (n : Z) :
  branch_name lib (JNum n) = "agentbeats/submission-" ++ Py.str_int n.
Proof. reflexivity. Qed.

End Publisher.

(** C7: for run 42 and a manifest of owner [alice] stamped
    [2024-01-02T03:04:05Z], the publisher creates the branch
    [agentbeats/submission-42] and commits under
    [submissions/alice/2024-01-02-03-0]: the 15 characters kept of the
    normalised timestamp hold the date, the hour and only the first digit
    of the minute. *)
Theorem timestamp_cut_within_minute :
  submission_timestamp (JStr "2024-01-02T03:04:05Z") = Ok "2024-01-02-03-0" /\
  exists k,
    create_submission_pr Toy.lib Toy.board (Toy.manifest "expected/repo")
      (JObj [("score", JNum 1)]) "a=1" (JNum 42)
    = Vis (Gh (CreateBranch 5 "expected/repo" "agentbeats/submission-42"
                 "main")) k /\
    exists k',
      k tt
      = Vis (Gh (CommitFiles 5 "expected/repo" "agentbeats/submission-42"
                   [("submissions/alice/2024-01-02-03-0/results.json", "{}");
                    ("submissions/alice/2024-01-02-03-0/manifest.json", "{}");
                    ("submissions/alice/2024-01-02-03-0/scenario.toml", "a=1")]
                   "[AgentBeats] Submission from alice")) k'.
Proof.
  split; [reflexivity|].
  eexists. split; [reflexivity|]. eexists. reflexivity.
Qed.

(** ** The small deployment *)

Lemma toy_run_event (action : string) (conclusion : json) (n : Z)
    (referenced : list json) :
  Py.ne_str (JStr action) "completed" = false ->
  Py.ne_str conclusion "success" = false ->
  referenced <> [] ->
  run_event (Toy.event action conclusion n referenced)
    (JNum n) (JStr "alice/agent") (JArr referenced).
Proof.
  intros Ha Hc Hne. exists (JObj [("id", JNum n);
                                  ("conclusion", conclusion);
                                  ("referenced_workflows", JArr referenced)]).
  split; [exists (JStr action); split; [reflexivity|exact Ha]|].
  split; [reflexivity|].
  split; [exists conclusion; split; [reflexivity|exact Hc]|].
  split; [split; [reflexivity|eexists; split; reflexivity]|].
  split; [reflexivity|].
  destruct referenced; [contradiction|reflexivity].
Qed.

Lemma toy_fresh (unique : bool) (n : Z) :
  fresh_run (Toy.svc unique) (Toy.payload n) Toy.world n "alice/agent"
    (JNum 99) Toy.board.
Proof.
  eexists. split; [apply toy_run_event; [reflexivity..|discriminate]|].
  split; [eexists; split; reflexivity|]. split; reflexivity.
Qed.

Lemma toy_delivers (unique : bool) (n : Z) :
  (n = 1 \/ n = 2 \/ n = 3 \/ n = 4)%Z ->
  delivers (Toy.svc unique) Toy.world (JNum 99) (JStr "alice/agent")
    (JNum n) (JNum n) (archive n).
Proof.
  intros Hn.
  destruct Hn as [-> | [-> | [-> | ->]]];
    (split; [|split; [reflexivity|discriminate]]);
    (eexists [JObj [("id", JNum 10); ("name", JStr "logs")]],
       (JObj [("id", JNum _); ("name", JStr "agentbeats-submission")]), [];
     split; [eexists; split; reflexivity|];
     split; [constructor; [eexists; split; reflexivity|constructor]|];
     eexists; repeat split; reflexivity).
Qed.

(** ** Examples in the small deployment *)

(** Run 1: the artifact is listed second, its manifest targets
    [expected/repo]; one submission is added and the answer is [ok]. *)
Lemma success_is_submitted_witness :
  exists w3,
    run (Toy.svc false) (handle_workflow_run Toy.lib (Toy.payload 1)) Toy.world
    = (Ok (ok (JStr "https://github.com/expected/repo/pull/1")),
       inserted w3
         (recorded Toy.lib w3 1 "expected/repo" "alice/agent" "submitted"
            None (Some "https://github.com/expected/repo/pull/1")
            (JObj [("score", JNum 1)]))).
Proof.
  eexists.
  edestruct (success_is_submitted Toy.lib (Toy.svc false) (Toy.payload 1)
               Toy.world) as [H _];
    [ apply (toy_fresh false 1)
    | apply (toy_delivers false 1); left; reflexivity
    | reflexivity | reflexivity | reflexivity | reflexivity
    | exact H ].
Defined.

(** Run 4: the results document of the archive is the empty object; the
    run is published and recorded as submitted, and the stored results are
    absent, not the serialised document. *)
Lemma empty_results_stored_absent :
  exists w row,
    parse_artifact Toy.lib (archive 4)
    = Ok (JObj [], Toy.manifest "expected/repo", "a=1") /\
    run (Toy.svc false) (handle_workflow_run Toy.lib (Toy.payload 4)) Toy.world
    = (Ok (ok (JStr "https://github.com/expected/repo/pull/1")), w) /\
    submissions w = [row] /\
    status row = "submitted" /\
    results_json row = None /\
    results_json row <> Some (json_dumps Toy.lib (JObj [])).
Proof.
  eexists. eexists.
  split; [reflexivity|]. split; [reflexivity|]. split; [reflexivity|].
  split; [reflexivity|]. split; [reflexivity|]. discriminate.
Qed.

(** Run 1 again, after it was recorded as rejected. *)
Lemma recorded_run_is_duplicate_witness :
  run (Toy.svc false) (handle_workflow_run Toy.lib (Toy.payload 1)) seen_world
  = (Ok (ignored "duplicate"), seen_world).
Proof.
  eapply (recorded_run_is_duplicate Toy.lib (Toy.svc false) (Toy.payload 1)
            seen_world 1 (JStr "alice/agent") _ Toy.board).
  - apply toy_run_event; [reflexivity..|discriminate].
  - reflexivity.
  - left. reflexivity.
  - reflexivity.
Defined.

(** Each of the three recorded outcomes makes the next delivery of the
    same event a duplicate: run 1 is submitted, run 2 rejected, run 7
    failed. *)
Example redelivery_after_each_outcome :
  Forall (fun n =>
            let first := run (Toy.svc false)
                           (handle_workflow_run Toy.lib (Toy.payload n))
                           Toy.world in
            List.length (submissions (snd first)) = 1%nat /\
            run (Toy.svc false) (handle_workflow_run Toy.lib (Toy.payload n))
              (snd first)
            = (Ok (ignored "duplicate"), snd first))
         [1%Z; 2%Z; 7%Z].
Proof. repeat constructor. Qed.

(** Two deliveries of the event of run 7 that interleave at the duplicate
    check.  Without a uniqueness constraint both record a submission for
    run 7 and both answer [no artifact]; with the constraint the second
    insertion raises.  In neither case is the second delivery answered
    [ignored] with reason [duplicate].  And once the leaderboard of a
    recorded run is no longer registered under the referenced name, a
    redelivery stops at the resolver, before the duplicate check. *)
Lemma racing_deliveries_both_pass :
  (exists w,
      interleave (Toy.svc false) racing_schedule
        (handle_workflow_run Toy.lib (Toy.payload 7))
        (handle_workflow_run Toy.lib (Toy.payload 7)) Toy.world
      = (Ret (error "no artifact"), Ret (error "no artifact"), w) /\
      map workflow_run_id (submissions w) = [7%Z; 7%Z] /\
      List.length (gh_log w) = 2%nat) /\
  (exists w,
      interleave (Toy.svc true) racing_schedule
        (handle_workflow_run Toy.lib (Toy.payload 7))
        (handle_workflow_run Toy.lib (Toy.payload 7)) Toy.world
      = (Ret (error "no artifact"), Throw UniqueViolationError, w) /\
      map workflow_run_id (submissions w) = [7%Z]) /\
  run (Toy.svc false) (handle_workflow_run Toy.lib (Toy.payload 1))
    {| leaderboards := []; submissions := submissions seen_world;
       gh_log := [] |}
  = (Ok (ignored "no registered leaderboard"),
     {| leaderboards := []; submissions := submissions seen_world;
        gh_log := [] |}).
Proof.
  split; [|split]; [eexists; repeat split; reflexivity..|reflexivity].
Qed.

(** Run 2: the manifest targets [other/repo]. *)
Lemma target_mismatch_is_rejected_witness :
  fst (run (Toy.svc false) (handle_workflow_run Toy.lib (Toy.payload 2))
         Toy.world)
  = Ok (rejected "target mismatch").
Proof.
  edestruct (target_mismatch_is_rejected Toy.lib (Toy.svc false)
               (Toy.payload 2) Toy.world) as [H _];
    [ apply (toy_fresh false 2)
    | apply (toy_delivers false 2); right; left; reflexivity
    | reflexivity | reflexivity | reflexivity
    | rewrite H; reflexivity ].
Defined.

(** Run 7: the listing holds [agentbeats-submission-logs] only. *)
Lemma no_artifact_is_failed_witness :
  fst (run (Toy.svc false) (handle_workflow_run Toy.lib (Toy.payload 7))
         Toy.world)
  = Ok (error "no artifact").
Proof.
  edestruct (no_artifact_is_failed Toy.lib (Toy.svc false) (Toy.payload 7)
               Toy.world 7 "alice/agent" (JNum 99) Toy.board
               [JObj [("id", JNum 70);
                      ("name", JStr "agentbeats-submission-logs")]])
    as [H _];
    [ apply (toy_fresh false 7)
    | eexists; split; reflexivity
    | constructor; [eexists; split; reflexivity|constructor]
    | rewrite H; reflexivity ].
Defined.

(** Run 3: the archive has no [manifest.json]. *)
Lemma missing_target_is_rejected_witness :
  fst (run (Toy.svc false) (handle_workflow_run Toy.lib (Toy.payload 3))
         Toy.world)
  = Ok (rejected "target mismatch").
Proof.
  edestruct (missing_target_is_rejected Toy.lib (Toy.svc false)
               (Toy.payload 3) Toy.world 3 "alice/agent" (JNum 99) (JNum 3)
               Toy.board (archive 3) (JObj [("score", JNum 1)]) [] "a=1")
    as [H _];
    [ apply (toy_fresh false 3)
    | apply (toy_delivers false 3); right; right; left; reflexivity
    | reflexivity | reflexivity
    | rewrite H; reflexivity ].
Defined.

(** Of [other/foo] and [expected/repo] only the second is registered: it
    is returned, and the entry after it, which is no reference at all, is
    not looked at. *)
Lemma find_leaderboard_first_match_witness :
  run (Toy.svc false)
    (find_leaderboard
       (JArr [Toy.reference "other/foo/.github/workflows/runner.yml";
              Toy.reference "expected/repo/.github/workflows/runner.yml";
              JNull])) Toy.world
  = (Ok (Some Toy.board), Toy.world) /\
  run (Toy.svc false)
    (find_leaderboard
       (JArr [Toy.reference "other/foo/.github/workflows/runner.yml";
              Toy.reference "runner.yml"])) Toy.world
  = (Ok None, Toy.world).
Proof.
  split.
  - apply (proj1 (find_leaderboard_first_match (Toy.svc false)) Toy.world
             [Toy.reference "other/foo/.github/workflows/runner.yml"]
             [JNull]
             (Toy.reference "expected/repo/.github/workflows/runner.yml")
             Toy.board).
    + constructor; [|constructor].
      eexists. split; [reflexivity|]. right. reflexivity.
    + eexists. split; [reflexivity|]. split; [cbn; lia|reflexivity].
  - apply (proj2 (find_leaderboard_first_match (Toy.svc false)) Toy.world).
    constructor; [|constructor; [|constructor]].
    + eexists. split; [reflexivity|]. right. reflexivity.
    + eexists. split; [reflexivity|]. left. cbn. lia.
Defined.

(** The bare [expected/repo] resolves as the full runner path does. *)
Lemma find_leaderboard_two_segments_witness :
  run (Toy.svc false)
    (find_leaderboard (JArr [Toy.reference "expected/repo"])) Toy.world
  = (Ok (Some Toy.board), Toy.world) /\
  run (Toy.svc false)
    (find_leaderboard
       (JArr [Toy.reference "expected/repo/.github/workflows/runner.yml"]))
    Toy.world
  = (Ok (Some Toy.board), Toy.world).
Proof.
  apply (find_leaderboard_two_segments (Toy.svc false) Toy.world
           "expected" "repo" ".github/workflows/runner.yml" [] Toy.board);
    reflexivity.
Defined.

(** The archive of run 1: three documents under the prefix [run/]. *)
Lemma parse_artifact_documents_witness :
  parse_artifact Toy.lib (archive 1)
  = Ok (JObj [("score", JNum 1)], Toy.manifest "expected/repo", "a=1").
Proof.
  edestruct (parse_artifact_documents Toy.lib (Toy.svc false) (archive 1)
               {| namelist := map Toy.entry_name (archive 1);
                  read := Toy.entry |}
               toy_content toy_doc toy_text) as [H _];
    [ reflexivity | | rewrite H; reflexivity ].
  intros name Hin. cbn in Hin.
  destruct Hin as [<- | [<- | [<- | []]]];
    (split; intros Hs;
     first [ split; reflexivity
           | vm_compute in Hs; discriminate Hs
           | destruct Hs as [Hs | Hs]; vm_compute in Hs; discriminate Hs ]).
Defined.

(** One event per guard. *)
Lemma guards_in_order_witness :
  run (Toy.svc false)
    (handle_workflow_run Toy.lib
       (Toy.event "requested" JNull 1 [])) Toy.world
  = (Ok (ignored "not completed"), Toy.world) /\
  run (Toy.svc false)
    (handle_workflow_run Toy.lib
       (Toy.event "completed" (JStr "failure") 1 [])) Toy.world
  = (Ok (ignored "conclusion=failure"), Toy.world) /\
  run (Toy.svc false)
    (handle_workflow_run Toy.lib
       (Toy.event "completed" (JStr "success") 1 [])) Toy.world
  = (Ok (ignored "no reusable workflows"), Toy.world) /\
  run (Toy.svc false)
    (handle_workflow_run Toy.lib
       (Toy.event "completed" (JStr "success") 1
          [Toy.reference "other/foo/.github/workflows/runner.yml"]))
    Toy.world
  = (Ok (ignored "no registered leaderboard"), Toy.world).
Proof.
  split; [|split; [|split]].
  - apply (proj1 (guards_in_order Toy.lib (Toy.svc false) _ Toy.world)
             (JStr "requested")); reflexivity.
  - apply (proj1 (proj2 (guards_in_order Toy.lib (Toy.svc false) _ Toy.world))
             (JObj [("id", JNum 1); ("conclusion", JStr "failure");
                    ("referenced_workflows", JArr [])])
             (JStr "failure"));
      [eexists; split; reflexivity|reflexivity..].
  - apply (proj1 (proj2 (proj2
             (guards_in_order Toy.lib (Toy.svc false) _ Toy.world)))
             (JObj [("id", JNum 1); ("conclusion", JStr "success");
                    ("referenced_workflows", JArr [])])
             (JNum 1) (JStr "alice/agent") (JArr []));
      [ eexists; split; reflexivity | reflexivity
      | eexists; split; reflexivity
      | split; [reflexivity|eexists; split; reflexivity]
      | reflexivity | reflexivity ].
  - apply (proj2 (proj2 (proj2
             (guards_in_order Toy.lib (Toy.svc false) _ Toy.world)))
             (JNum 1) (JStr "alice/agent")
             (JArr [Toy.reference "other/foo/.github/workflows/runner.yml"]));
      [apply toy_run_event; [reflexivity..|discriminate]|reflexivity].
Defined.

(** * Further properties of the pipeline *)

(** ** What one delivery can write *)

Section Effects.

Variable lib : PyLib.
Variable svc : Services.











End Effects.

(** ** The publisher, step by step *)

Section PublisherSteps.

Variable lib : PyLib.
Variable svc : Services.

Lemma publisher_unfold (lb : Leaderboard) (manifest results : json)
    (scenario : string) (rid owner : json) (ts : string) :
  Py.getitem manifest "purple_agent_owner" = Ok owner ->
  Py.getitem manifest "timestamp" = Ok (JStr ts) ->
  create_submission_pr lib lb manifest results scenario rid
  = Vis (Gh (branch_call lib lb rid)) (fun _ =>
    Vis (Gh (commit_call lib lb manifest results scenario rid owner ts))
      (fun _ =>
         attempt (format_pr_body lib manifest results) (fun body =>
         Vis (Gh (pr_call lib lb rid owner body)) (fun pr =>
         attempt (Py.getitem pr "html_url") (fun url => Ret url))))).
Proof.
  intros Howner Hts. unfold create_submission_pr.
  rewrite Howner. cbn [attempt]. rewrite Hts.
  cbn [attempt submission_timestamp Py.replace rbind bind await].
  reflexivity.
Qed.

(** X3: when the manifest names its owner and timestamp, the body can be
    formatted and GitHub accepts each call, the publisher makes exactly
    three calls, in the order branch, commit, pull request, all on the
    leaderboard's repository under its installation, and returns the
    [html_url] of the pull request GitHub answered with. *)
Theorem publisher_calls_in_order (w : World) (lb : Leaderboard)
    (manifest results : json) (scenario : string) (rid owner : json)
    (ts body : string) (pr url : json) :
  Py.getitem manifest "purple_agent_owner" = Ok owner ->
  Py.getitem manifest "timestamp" = Ok (JStr ts) ->
  format_pr_body lib manifest results = Ok body ->
  let c1 := branch_call lib lb rid in
  let c2 := commit_call lib lb manifest results scenario rid owner ts in
  let c3 := pr_call lib lb rid owner body in
  github_client svc (gh_log w) c1 = Ok tt ->
  github_client svc (gh_log w ++ [c1])%list c2 = Ok tt ->
  github_client svc (gh_log w ++ [c1; c2])%list c3 = Ok pr ->
  Py.getitem pr "html_url" = Ok url ->
  run svc (create_submission_pr lib lb manifest results scenario rid) w
  = (Ok url, logged w [c1; c2; c3]).
Proof.
  intros Howner Hts Hbody c1 c2 c3 H1 H2 H3 Hurl.
  rewrite (publisher_unfold lb manifest results scenario rid owner ts Howner Hts).
  cbn [run exec gh_log]. fold c1. rewrite H1.
  cbn [run exec gh_log]. fold c2. rewrite H2.
  rewrite Hbody. cbn [attempt run exec gh_log]. fold c3.
  rewrite <- app_assoc. cbn [app]. rewrite H3, Hurl.
  cbn [attempt run]. unfold logged. cbn [gh_log leaderboards submissions].
  rewrite <- !app_assoc. reflexivity.
Qed.

(** X4: the publisher stops at the first call GitHub refuses: a refused
    branch is followed by no commit and no pull request, a refused commit
    by no pull request, and the exception of the refused call is the
    outcome. *)
Theorem publisher_stops_at_refusal (w : World) (lb : Leaderboard)
    (manifest results : json) (scenario : string) (rid owner : json)
    (ts : string) (e : exn) :
  Py.getitem manifest "purple_agent_owner" = Ok owner ->
  Py.getitem manifest "timestamp" = Ok (JStr ts) ->
  let c1 := branch_call lib lb rid in
  let c2 := commit_call lib lb manifest results scenario rid owner ts in
  (github_client svc (gh_log w) c1 = Err e ->
   run svc (create_submission_pr lib lb manifest results scenario rid) w
   = (Err e, logged w [c1])) /\
  (github_client svc (gh_log w) c1 = Ok tt ->
   github_client svc (gh_log w ++ [c1])%list c2 = Err e ->
   run svc (create_submission_pr lib lb manifest results scenario rid) w
   = (Err e, logged w [c1; c2])) /\
  (forall body,
      github_client svc (gh_log w) c1 = Ok tt ->
      github_client svc (gh_log w ++ [c1])%list c2 = Ok tt ->
      format_pr_body lib manifest results = Ok body ->
      github_client svc (gh_log w ++ [c1; c2])%list
        (pr_call lib lb rid owner body) = Err e ->
      run svc (create_submission_pr lib lb manifest results scenario rid) w
      = (Err e, logged w [c1; c2; pr_call lib lb rid owner body])).
Proof.
  intros Howner Hts c1 c2.
  rewrite (publisher_unfold lb manifest results scenario rid owner ts Howner Hts).
  repeat split.
  - intros H1. cbn [run exec gh_log]. fold c1. rewrite H1. reflexivity.
  - intros H1 H2. cbn [run exec gh_log]. fold c1. rewrite H1.
    cbn [run exec gh_log]. fold c2. rewrite H2.
    unfold logged. cbn [gh_log leaderboards submissions].
    rewrite <- !app_assoc. reflexivity.
  - intros body H1 H2 Hbody H3. cbn [run exec gh_log]. fold c1. rewrite H1.
    cbn [run exec gh_log]. fold c2. rewrite H2.
    rewrite Hbody. cbn [attempt run exec gh_log].
    rewrite <- app_assoc. cbn [app]. rewrite H3.
    unfold logged. cbn [gh_log leaderboards submissions].
    rewrite <- !app_assoc. reflexivity.
Qed.

(** X5: the manifest is read in two places.  A manifest without owner or
    timestamp, or whose timestamp is not a string, makes the publisher
    raise before GitHub is called.  A manifest with both whose body cannot
    be formatted (a field of the pull-request text is missing) makes it
    raise only after the branch and the commit were made: the branch
    stays behind without a pull request. *)
Theorem publisher_reads_manifest_twice (w : World) (lb : Leaderboard)
    (manifest results : json) (scenario : string) (rid : json) :
  (forall e,
      Py.getitem manifest "purple_agent_owner" = Err e ->
      run svc (create_submission_pr lib lb manifest results scenario rid) w
      = (Err e, w)) /\
  (forall owner e,
      Py.getitem manifest "purple_agent_owner" = Ok owner ->
      Py.getitem manifest "timestamp" = Err e ->
      run svc (create_submission_pr lib lb manifest results scenario rid) w
      = (Err e, w)) /\
  (forall owner ts,
      Py.getitem manifest "purple_agent_owner" = Ok owner ->
      Py.getitem manifest "timestamp" = Ok ts ->
      (forall s, ts <> JStr s) ->
      run svc (create_submission_pr lib lb manifest results scenario rid) w
      = (Err (AttributeError "replace"), w)) /\
  (forall owner ts e,
      Py.getitem manifest "purple_agent_owner" = Ok owner ->
      Py.getitem manifest "timestamp" = Ok (JStr ts) ->
      format_pr_body lib manifest results = Err e ->
      let c1 := branch_call lib lb rid in
      let c2 := commit_call lib lb manifest results scenario rid owner ts in
      github_client svc (gh_log w) c1 = Ok tt ->
      github_client svc (gh_log w ++ [c1])%list c2 = Ok tt ->
      run svc (create_submission_pr lib lb manifest results scenario rid) w
      = (Err e, logged w [c1; c2])).
Proof.
  repeat split.
  - intros e H. unfold create_submission_pr. rewrite H. reflexivity.
  - intros owner e Ho H. unfold create_submission_pr. rewrite Ho.
    cbn [attempt]. rewrite H. reflexivity.
  - intros owner ts Ho H Hns. unfold create_submission_pr. rewrite Ho.
    cbn [attempt]. rewrite H. cbn [attempt].
    destruct ts; try reflexivity. destruct (Hns s eq_refl).
  - intros owner ts e Howner Hts Hbody c1 c2 H1 H2.
    rewrite (publisher_unfold lb manifest results scenario rid owner ts
               Howner Hts).
    cbn [run exec gh_log]. fold c1. rewrite H1.
    cbn [run exec gh_log]. fold c2. rewrite H2.
    rewrite Hbody. cbn [attempt run].
    unfold logged. cbn [gh_log leaderboards submissions].
    rewrite <- !app_assoc. reflexivity.
Qed.

(** X6: the text of the pull request needs four fields of the manifest,
    read in the order owner, repository, run id, run URL: with all four
    present the body is formatted, otherwise the first missing one is
    reported as a [KeyError]. *)
Theorem format_pr_body_needs_four_fields (fields : list (string * json))
    (results : json) :
  match first_missing ["purple_agent_owner"; "purple_agent_repo";
                       "run_id"; "run_url"] fields with
  | None => exists body, format_pr_body lib (JObj fields) results = Ok body
  | Some key => format_pr_body lib (JObj fields) results = Err (KeyError key)
  end.
Proof.
  unfold format_pr_body. cbn [first_missing Py.getitem].
  destruct (Py.assoc "purple_agent_owner" fields); [|reflexivity].
  cbn [rbind].
  destruct (Py.assoc "purple_agent_repo" fields); [|reflexivity].
  cbn [rbind].
  destruct (Py.assoc "run_id" fields); [|reflexivity].
  cbn [rbind].
  destruct (Py.assoc "run_url" fields); [|reflexivity].
  cbn [rbind]. eexists. reflexivity.
Qed.

End PublisherSteps.

(** ** Failures past the download *)

Section Failures.

Variable lib : PyLib.
Variable svc : Services.

(** X7: when the publisher raises, the delivery raises the same exception
    and records nothing: the world is as the publisher left it, calls
    made to GitHub included, and the run still has no submission, so a
    later delivery of the event is not a duplicate. *)
Theorem publish_failure_leaves_no_record (payload : json) (w w3 : World)
    (n : Z) (repo : string) (inst aid : json) (lb : Leaderboard) (zip : bytes)
    (results manifest : json) (scenario : string) (target : json) (e : exn) :
  fresh_run svc payload w n repo inst lb ->
  delivers svc w inst (JStr repo) (JNum n) aid zip ->
  parse_artifact lib zip = Ok (results, manifest, scenario) ->
  Py.get manifest "target_leaderboard" JNull = Ok target ->
  Py.ne_str target (repo_full_name lb) = false ->
  run svc (create_submission_pr lib lb manifest results scenario (JNum n))
    (logged w [GetArtifacts inst (JStr repo) (JNum n);
               DownloadArtifact inst (JStr repo) aid])
  = (Err e, w3) ->
  run svc (handle_workflow_run lib payload) w = (Err e, w3) /\
  get_submission_by_run_id_row n (submissions w3) = None.
Proof.
  intros Hfresh ((pre & a & post & Hlists & Hpre & Hart) & Hzip & Hne)
    Hparse Htarget Hsame Hpub.
  assert (Hsubs : submissions w3 = submissions w).
  { destruct (create_submission_pr_world lib svc (logged w
      [GetArtifacts inst (JStr repo) (JNum n);
       DownloadArtifact inst (JStr repo) aid]) lb manifest results scenario
      (JNum n)) as [cs Hcs].
    rewrite Hpub in Hcs. cbn [snd] in Hcs. rewrite Hcs. reflexivity. }
  pass_checks svc Hfresh. split; [|rewrite Hsubs; exact Hnone].
  rewrite run_bind, (download_hit svc _ _ _ _ _ _ _ _ Hlists Hpre Hart), Hzip.
  destruct zip as [|b zip]; [contradiction|].
  rewrite Hparse. cbn [attempt]. rewrite Htarget. cbn [attempt]. rewrite Hsame.
  rewrite run_bind, Hpub. reflexivity.
Qed.

(** X8: an archive that cannot be extracted (not a zip, an entry that is
    not JSON or not UTF-8) makes the delivery raise the extractor's
    exception after the listing and the download; nothing is recorded and
    nothing is published. *)
Theorem extraction_failure_leaves_no_record (payload : json) (w : World)
    (n : Z) (repo : string) (inst aid : json) (lb : Leaderboard) (zip : bytes)
    (e : exn) :
  fresh_run svc payload w n repo inst lb ->
  delivers svc w inst (JStr repo) (JNum n) aid zip ->
  parse_artifact lib zip = Err e ->
  run svc (handle_workflow_run lib payload) w
  = (Err e, logged w [GetArtifacts inst (JStr repo) (JNum n);
                      DownloadArtifact inst (JStr repo) aid]).
Proof.
  intros Hfresh ((pre & a & post & Hlists & Hpre & Hart) & Hzip & Hne) Hparse.
  pass_checks svc Hfresh.
  rewrite run_bind, (download_hit svc _ _ _ _ _ _ _ _ Hlists Hpre Hart), Hzip.
  destruct zip as [|b zip]; [contradiction|].
  rewrite Hparse. reflexivity.
Qed.

(** X9: an artifact that is listed under the right name but downloads as
    nothing, [None] or zero bytes, is treated as a missing artifact: the
    run is recorded as [failed] with [No artifact found] and answered
    [no artifact], after the listing and the download. *)
Theorem empty_download_is_failed (payload : json) (w : World) (n : Z)
    (repo : string) (inst aid a : json) (lb : Leaderboard)
    (pre post : list json) (data : option bytes) :
  fresh_run svc payload w n repo inst lb ->
  lists svc w inst (JStr repo) (JNum n) (pre ++ a :: post)%list ->
  Forall other_artifact pre ->
  submission_artifact a aid ->
  github_client svc (gh_log w ++ [GetArtifacts inst (JStr repo) (JNum n)])%list
    (DownloadArtifact inst (JStr repo) aid) = Ok data ->
  data = None \/ data = Some [] ->
  let w1 := logged w [GetArtifacts inst (JStr repo) (JNum n);
                      DownloadArtifact inst (JStr repo) aid] in
  run svc (handle_workflow_run lib payload) w
  = (Ok (error "no artifact"),
     inserted w1 (recorded lib w1 n (repo_full_name lb) repo
                    "failed" (Some "No artifact found") None JNull)).
Proof.
  intros Hfresh Hlists Hpre Hart Hdata Hempty w1.
  pass_checks svc Hfresh.
  rewrite run_bind, (download_hit svc _ _ _ _ _ _ _ _ Hlists Hpre Hart), Hdata.
  destruct Hempty as [-> | ->];
    rewrite run_bind;
    rewrite (run_record_submission lib svc (logged w _) _ _ _ _ _
               JNull None _); try reflexivity; exact Hnone.
Qed.

(** X10: a reference that is malformed, without a [path] or with a path
    that is not a string, makes the resolver raise when it is reached,
    even if a reference after it would resolve; only references before the
    first hit are reached. *)
Theorem find_leaderboard_raises_on_malformed (w : World)
    (pre post : list json) (ref : json) :
  Forall (misses (leaderboards w)) pre ->
  (forall e,
      Py.getitem ref "path" = Err e ->
      run svc (find_leaderboard (JArr (pre ++ ref :: post)%list)) w
      = (Err e, w)) /\
  (forall v,
      Py.getitem ref "path" = Ok v ->
      (forall s, v <> JStr s) ->
      run svc (find_leaderboard (JArr (pre ++ ref :: post)%list)) w
      = (Err (AttributeError "split"), w)).
Proof.
  intros Hpre. split.
  - intros e He. unfold find_leaderboard. cbn [Py.iter attempt].
    rewrite find_leaderboard_loop_skip by assumption.
    cbn [find_leaderboard_loop]. rewrite He. reflexivity.
  - intros v Hv Hns. unfold find_leaderboard. cbn [Py.iter attempt].
    rewrite find_leaderboard_loop_skip by assumption.
    cbn [find_leaderboard_loop]. rewrite Hv. cbn [attempt].
    destruct v; try reflexivity. destruct (Hns s eq_refl).
Qed.

(** X11: of several listed artifacts named [agentbeats-submission] the
    first is downloaded; the download is the only call after the listing
    and its answer, data or exception, is the outcome.  An entry before it
    that has no [name] makes the lookup raise instead. *)
Theorem download_takes_first_named (w : World) (inst repo rid a aid : json)
    (pre post : list json) :
  lists svc w inst repo rid (pre ++ a :: post)%list ->
  Forall other_artifact pre ->
  (submission_artifact a aid ->
   run svc (download_submission_artifact inst repo rid) w
   = (github_client svc (gh_log w ++ [GetArtifacts inst repo rid])%list
        (DownloadArtifact inst repo aid),
      logged w [GetArtifacts inst repo rid; DownloadArtifact inst repo aid])) /\
  (forall e,
      Py.getitem a "name" = Err e ->
      run svc (download_submission_artifact inst repo rid) w
      = (Err e, logged w [GetArtifacts inst repo rid])).
Proof.
  intros Hlists Hpre. split.
  - intros Hart. exact (download_hit svc _ _ _ _ _ _ _ _ Hlists Hpre Hart).
  - intros e He. destruct Hlists as (arts & Hgh & Hget).
    unfold download_submission_artifact.
    cbn [bind await run exec]. rewrite Hgh, Hget. cbn [attempt Py.iter].
    rewrite download_loop_skip by assumption.
    cbn [download_loop]. rewrite He. reflexivity.
Qed.

(** X12: [record_submission] stores as owner the text of the submitting
    repository's name before its first [/]; where the schema does not
    make run ids unique it inserts a row whether or not the run already
    has one. *)
Theorem record_submission_owner (w : World) (n : Z)
    (lrepo owner name st : string) (err : option string) :
  has_char "/" owner = false ->
  run_id_unique svc = false ->
  exists row,
    run svc (record_submission lib (JNum n) lrepo
               (JStr (owner ++ "/" ++ name)) st err JNull JNull) w
    = (Ok tt, inserted w row) /\
    purple_owner row = owner /\
    purple_repo row = owner ++ "/" ++ name /\
    workflow_run_id row = n.
Proof.
  intros Howner Hfree. unfold record_submission, create_submission.
  cbn [Py.split attempt as_int as_str as_opt_str bind await run exec].
  rewrite Hfree. cbn [andb].
  eexists. split; [reflexivity|]. cbn [purple_owner purple_repo workflow_run_id].
  split; [|split; reflexivity].
  change (owner ++ "/" ++ name) with (owner ++ String "/" name).
  rewrite split_on_cons by assumption. reflexivity.
Qed.

End Failures.

(** ** The extractor and the entries it reads *)

Section ExtractorEntries.

Variable lib : PyLib.

Lemma is_document_false (name : string) :
  is_document name = false -> no_document name.
Proof.
  unfold is_document, no_document. intros H.
  apply orb_false_iff in H. destruct H as [H Hs].
  apply orb_false_iff in H. destruct H as [Hr Hm]. auto.
Qed.

Lemma parse_entries_agree (zf1 zf2 : ZipFile) (names : list string) :
  (forall name, In name names -> is_document name = true ->
                read zf1 name = read zf2 name) ->
  forall acc, parse_entries lib zf1 names acc = parse_entries lib zf2 names acc.
Proof.
  induction names as [|name rest IH]; intros Hagree acc; [reflexivity|].
  assert (Hrest : forall x, In x rest -> is_document x = true ->
                            read zf1 x = read zf2 x)
    by (intros x Hx; apply Hagree; right; exact Hx).
  specialize (IH Hrest).
  destruct acc as [[results manifest] scenario]. cbn [parse_entries].
  destruct (is_document name) eqn:Hdoc.
  - rewrite (Hagree name (or_introl eq_refl) Hdoc).
    destruct (Py.endswith name "results.json");
      [destruct (read zf2 name) as [b|e]; cbn [rbind]; [|reflexivity];
       destruct (json_loads lib b); cbn [rbind]; [apply IH|reflexivity]|].
    destruct (Py.endswith name "manifest.json");
      [destruct (read zf2 name) as [b|e]; cbn [rbind]; [|reflexivity];
       destruct (json_loads lib b); cbn [rbind]; [apply IH|reflexivity]|].
    destruct (Py.endswith name "scenario.toml"); [|apply IH].
    destruct (read zf2 name) as [b|e]; cbn [rbind]; [|reflexivity].
    destruct (decode_utf8 lib b); cbn [rbind]; [apply IH|reflexivity].
  - destruct (is_document_false name Hdoc) as (Hr & Hm & Hs).
    rewrite Hr, Hm, Hs. apply IH.
Qed.


(** X13: extraction reads the entries named as one of the three documents
    and no other: two archives with the same names whose document entries
    have the same content extract to the same outcome, documents or
    exception, whatever their other entries hold. *)
Theorem extraction_reads_documents_only (zip1 zip2 : bytes) (zf1 zf2 : ZipFile) :
  zip_open lib zip1 = Ok zf1 ->
  zip_open lib zip2 = Ok zf2 ->
  namelist zf1 = namelist zf2 ->
  (forall name, In name (namelist zf1) -> is_document name = true ->
                read zf1 name = read zf2 name) ->
  parse_artifact lib zip1 = parse_artifact lib zip2.
Proof.
  intros H1 H2 Hnames Hagree. unfold parse_artifact.
  rewrite H1, H2. cbn [rbind]. rewrite <- Hnames.
  apply parse_entries_agree. exact Hagree.
Qed.


End ExtractorEntries.

(** * Properties of the installation handler and the entry point *)

Section Performing.

Variable host : Hosting.

Lemma perform_tbind {A B : Type} (t : task A) (f : A -> task B) (s : Site) :
  perform host (tbind t f) s =
  match perform host t s with
  | (Ok a, s') => perform host (f a) s'
  | (Err e, s') => (Err e, s')
  end.
Proof.
  revert s. induction t as [a|e|c k IH]; intros s; cbn [tbind perform];
    try reflexivity.
  destruct (reg_exec host c s) as [r s']. apply IH.
Qed.

Lemma perform_catch {A : Type} (t : task A) (h : exn -> task A) (s : Site) :
  perform host (catch t h) s =
  match perform host t s with
  | (Ok a, s') => (Ok a, s')
  | (Err e, s') => perform host (h e) s'
  end.
Proof.
  revert s. induction t as [a|e|c k IH]; intros s; cbn [catch perform];
    try reflexivity.
  destruct (reg_exec host c s) as [r s']. apply IH.
Qed.

Lemma perform_embed {A : Type} (p : prog A) (s : Site) :
  perform host (embed p) s =
  (fst (run (services host) p (core s)),
   {| core := snd (run (services host) p (core s));
      contents_log := contents_log s |}).
Proof.
  revert s. induction p as [a|e|c k IH]; intros s; cbn [embed perform run];
    try (destruct s; reflexivity).
  cbn [reg_exec]. destruct (exec (services host) c (core s)) as [[r|e] w'].
  - rewrite IH. reflexivity.
  - reflexivity.
Qed.

Lemma perform_check (inst name : json) (s : Site) :
  perform host (check_is_leaderboard inst name) s =
  (Ok (answers_runner host s inst name), after_read s inst name).
Proof.
  unfold check_is_leaderboard, answers_runner, after_read, runner_path.
  cbn [tbind ask catch perform reg_exec].
  destruct (repo_contents host (gh_log (core s)) (contents_log s) inst name
              ".github/workflows/runner.yml"); reflexivity.
Qed.

End Performing.

Section Registrar.

Variable lib : PyLib.
Variable host : Hosting.

(** The loop over a list is the loop over its first entry followed by the
    loop over the rest. *)
Lemma register_repos_cons (inst repo : json) (rest reg : list json) (s : Site) :
  perform host (register_repos inst (repo :: rest) reg) s =
  match perform host (register_repos inst [repo] reg) s with
  | (Ok reg', s') => perform host (register_repos inst rest reg') s'
  | (Err e, s') => (Err e, s')
  end.
Proof.
  cbn [register_repos].
  destruct (Py.get repo "fork" (JBool false)) as [fork|e]; [|reflexivity].
  cbn [tattempt]. destruct (Py.truthy fork); [reflexivity|].
  destruct (Py.getitem repo "full_name") as [name|e]; [|reflexivity].
  cbn [tattempt].
  destruct (Py.getitem repo "id") as [rid|e]; [|reflexivity].
  cbn [tattempt]. rewrite !perform_tbind, perform_check.
  destruct (answers_runner host s inst name); cbn [negb]; [|reflexivity].
  rewrite !perform_tbind.
  destruct (perform host (get_leaderboard_by_repo_id rid) (after_read s inst name))
    as [[[l|]|e] s1]; [| |reflexivity].
  - destruct (Py.ne_str name (repo_full_name l)); [|reflexivity].
    rewrite !perform_tbind.
    destruct (perform host (update_leaderboard_repo_name rid name) s1)
      as [[u|e] s2]; reflexivity.
  - rewrite !perform_tbind.
    destruct (perform host (create_leaderboard rid name inst) s1)
      as [[l|e] s2]; reflexivity.
Qed.













(** X17: [check_is_leaderboard] never raises.  It reads the runner file
    once and answers [True] exactly when GitHub answers with something
    other than [None]; an exception of the read, whatever it is, becomes
    the answer [False]. *)
Theorem check_is_leaderboard_never_raises (inst name : json) (s : Site) :
  perform host (check_is_leaderboard inst name) s
  = (Ok (answers_runner host s inst name), after_read s inst name) /\
  (answers_runner host s inst name = true <->
   exists v,
     repo_contents host (gh_log (core s)) (contents_log s) inst name
       ".github/workflows/runner.yml" = Ok v /\ v <> JNull).
Proof.
  split; [apply perform_check|].
  unfold answers_runner, runner_path.
  destruct (repo_contents host (gh_log (core s)) (contents_log s) inst name
              ".github/workflows/runner.yml") as [v|e].
  - split.
    + intros H. exists v. split; [reflexivity|]. intros ->. discriminate.
    + intros (v' & [= <-] & Hv). destruct v; try reflexivity. contradiction.
  - split; [discriminate|]. intros (v & Hv & _). discriminate.
Qed.

Lemma register_one_fork (inst repo : json) (reg : list json) (s : Site) :
  is_fork repo = true ->
  perform host (register_repos inst [repo] reg) s = (Ok reg, s).
Proof.
  unfold is_fork. cbn [register_repos].
  destruct (Py.get repo "fork" (JBool false)) as [fork|e]; [|discriminate].
  intros H. cbn [tattempt]. rewrite H. reflexivity.
Qed.

(** X18: forks are passed over without a read, a query or a
    registration: the handler treats a list of repositories as it treats
    the list with its forks removed. *)
Theorem forks_are_skipped (inst : json) (repos reg : list json) (s : Site) :
  perform host (register_repos inst repos reg) s
  = perform host
      (register_repos inst (filter (fun r => negb (is_fork r)) repos) reg) s.
Proof.
  revert reg s. induction repos as [|repo rest IH]; intros reg s;
    [reflexivity|].
  rewrite register_repos_cons. cbn [filter].
  destruct (is_fork repo) eqn:Hfork; cbn [negb].
  - rewrite (register_one_fork inst repo reg s Hfork). apply IH.
  - rewrite (register_repos_cons inst repo (filter _ rest)).
    destruct (perform host (register_repos inst [repo] reg) s)
      as [[reg'|e] s1]; [apply IH|reflexivity].
Qed.

Lemma register_one_enter (inst repo : json) (name : string) (n : Z)
    (rest reg : list json) (s : Site) :
  repository repo name n ->
  perform host (register_repos inst (repo :: rest) reg) s =
  if negb (answers_runner host s inst (JStr name))
  then perform host (register_repos inst rest reg) (after_read s inst (JStr name))
  else
    match get_leaderboard_by_repo_id_row n (leaderboards (core s)) with
    | Some l =>
        if Py.ne_str (JStr name) (repo_full_name l)
        then perform host (register_repos inst rest reg)
               (site_with (after_read s inst (JStr name))
                  (update_leaderboard_repo_name_rows n name
                     (leaderboards (core s))))
        else perform host (register_repos inst rest reg)
               (after_read s inst (JStr name))
    | None =>
        perform host
          (_ <- create_leaderboard (JNum n) (JStr name) inst ;;
           register_repos inst rest (reg ++ [JStr name])%list)%task
          (after_read s inst (JStr name))
    end.
Proof.
  intros (fork & Hfork & Hfalsy & Hname & Hid).
  cbn [register_repos]. rewrite Hfork. cbn [tattempt]. rewrite Hfalsy, Hname.
  cbn [tattempt]. rewrite Hid. cbn [tattempt].
  rewrite perform_tbind, perform_check.
  destruct (answers_runner host s inst (JStr name)); cbn [negb];
    [|reflexivity].
  rewrite perform_tbind. unfold get_leaderboard_by_repo_id.
  cbn [as_int tattempt ask perform reg_exec].
  change (leaderboards (core (after_read s inst (JStr name))))
    with (leaderboards (core s)).
  destruct (get_leaderboard_by_repo_id_row n (leaderboards (core s))) as [l|];
    [|reflexivity].
  destruct (Py.ne_str (JStr name) (repo_full_name l)); [|reflexivity].
  rewrite perform_tbind. reflexivity.
Qed.

(** X19: a repository that is no fork, has the runner file and whose id
    is not registered is registered: one leaderboard with its id, its
    name and the installation is appended, its name joins the list the
    handler returns, and the handler goes on with the rest. *)
Theorem registers_new_repository (i : Z) (repo : json) (name : string) (n : Z)
    (rest reg : list json) (s : Site) :
  repository repo name n ->
  answers_runner host s (JNum i) (JStr name) = true ->
  get_leaderboard_by_repo_id_row n (leaderboards (core s)) = None ->
  perform host (register_repos (JNum i) (repo :: rest) reg) s
  = perform host (register_repos (JNum i) rest (reg ++ [JStr name])%list)
      (site_with (after_read s (JNum i) (JStr name))
         (leaderboards (core s) ++ [new_board s n name i])%list).
Proof.
  intros Hrepo Hrunner Hnone.
  rewrite (register_one_enter (JNum i) repo name n rest reg s Hrepo).
  rewrite Hrunner, Hnone. cbn [negb].
  rewrite perform_tbind. unfold create_leaderboard.
  cbn [as_int as_str tattempt ask perform reg_exec].
  change (leaderboards (core (after_read s (JNum i) (JStr name))))
    with (leaderboards (core s)).
  rewrite Hnone, andb_false_r. reflexivity.
Qed.

Lemma update_rows_lookup (n : Z) (name : string) (t : list Leaderboard)
    (l : Leaderboard) :
  get_leaderboard_by_repo_id_row n t = Some l ->
  get_leaderboard_by_repo_id_row n (update_leaderboard_repo_name_rows n name t)
  = Some {| lb_id := lb_id l; github_repo_id := github_repo_id l;
            repo_full_name := name; installation_id := installation_id l |}.
Proof.
  unfold get_leaderboard_by_repo_id_row.
  induction t as [|x t IH]; [discriminate|].
  cbn [update_leaderboard_repo_name_rows map find].
  destruct (github_repo_id x =? n)%Z eqn:E.
  - cbn [github_repo_id]. rewrite E. intros [= <-]. reflexivity.
  - rewrite E. exact IH.
Qed.

(** X20: a repository whose id is already registered is never registered
    again and never reported as registered.  If the registered name is the
    name the event carries, nothing is written; if it differs, the name is
    updated in place: the table keeps its length, and the row found for
    the id keeps its key and installation and carries the new name. *)
Theorem known_repository_is_renamed_in_place (inst repo : json)
    (name : string) (n : Z) (rest reg : list json) (s : Site) (l : Leaderboard) :
  repository repo name n ->
  answers_runner host s inst (JStr name) = true ->
  get_leaderboard_by_repo_id_row n (leaderboards (core s)) = Some l ->
  let t' := update_leaderboard_repo_name_rows n name (leaderboards (core s)) in
  (repo_full_name l = name ->
   perform host (register_repos inst (repo :: rest) reg) s
   = perform host (register_repos inst rest reg)
       (after_read s inst (JStr name))) /\
  (repo_full_name l <> name ->
   perform host (register_repos inst (repo :: rest) reg) s
   = perform host (register_repos inst rest reg)
       (site_with (after_read s inst (JStr name)) t')) /\
  List.length t' = List.length (leaderboards (core s)) /\
  get_leaderboard_by_repo_id_row n t'
  = Some {| lb_id := lb_id l; github_repo_id := github_repo_id l;
            repo_full_name := name; installation_id := installation_id l |}.
Proof.
  intros Hrepo Hrunner Hsome t'.
  pose proof (register_one_enter inst repo name n rest reg s Hrepo) as H.
  rewrite Hrunner, Hsome in H. cbn [negb] in H.
  split; [|split; [|split]].
  - intros Hsame. rewrite H. unfold Py.ne_str. cbn [Py.eq_str].
    rewrite Hsame, String.eqb_refl. reflexivity.
  - intros Hdiff. rewrite H. unfold Py.ne_str. cbn [Py.eq_str].
    destruct (String.eqb_spec name (repo_full_name l)) as [E|_];
      [congruence|reflexivity].
  - apply length_map.
  - apply update_rows_lookup. exact Hsome.
Qed.

Lemma register_settled (inst : json) (repos reg : list json) (s : Site) :
  Forall (settled (leaderboards (core s))) repos ->
  exists s',
    perform host (register_repos inst repos reg) s = (Ok reg, s') /\
    core s' = core s.
Proof.
  revert s. induction repos as [|repo rest IH]; intros s Hall;
    [exists s; split; reflexivity|].
  inversion Hall as [|x xs Hrepo Hrest]; subst.
  destruct Hrepo as [Hfork|(fork & name & n & l & Hf & Hfalsy & Hname & Hid
                              & Hl & Hsame)].
  - rewrite register_repos_cons, (register_one_fork inst repo reg s Hfork).
    apply IH. exact Hrest.
  - rewrite (register_one_enter inst repo name n rest reg s).
    2:{ exists fork. auto. }
    rewrite Hl. unfold Py.ne_str. cbn [Py.eq_str].
    rewrite Hsame, String.eqb_refl. cbn [negb].
    destruct (IH (after_read s inst (JStr name)) Hrest) as (s' & Hs' & Hcore).
    exists s'. split; [|exact Hcore].
    destruct (negb (answers_runner host s inst (JStr name))); exact Hs'.
Qed.

(** X21: an installation event whose repositories are all settled, each a
    fork or registered under the name the event carries, registers
    nothing and writes nothing, whatever GitHub answers about the runner
    files: the answer lists no repository and the tables are as before. *)
Theorem settled_event_changes_nothing (payload inst : json)
    (items : list json) (s : Site) :
  lists_repositories payload "repositories" inst items ->
  Forall (settled (leaderboards (core s))) items ->
  exists s',
    perform host (handle_installation lib payload) s
    = (Ok (registered_ok []), s') /\
    core s' = core s.
Proof.
  intros (((action & Ha & Hact) & (installation & Hi & Hid)) & Hrepos) Hall.
  unfold handle_installation. rewrite Ha. cbn [tattempt]. rewrite Hact.
  cbn [negb]. rewrite Hi. cbn [tattempt]. rewrite Hid. cbn [tattempt].
  assert (Hkey : has_key payload "repositories" = true).
  { unfold has_key. destruct payload; try discriminate.
    cbn [Py.getitem] in Hrepos.
    destruct (Py.assoc "repositories" fields); [reflexivity|discriminate]. }
  rewrite Hkey, Hrepos. cbn [tattempt Py.iter]. rewrite perform_tbind.
  destruct (register_settled inst items [] s Hall) as (s' & Hs' & Hcore).
  rewrite Hs'. exists s'. split; [reflexivity|exact Hcore].
Qed.

(** X22: the guards of the installation handler.  An action other than
    [created] and [added] is ignored with the action written into the
    reason; an event to act on that carries neither [repositories] nor
    [repositories_added] is ignored as [no repositories]; in both cases
    nothing is read or written.  When both lists are present
    [repositories] is the one handled. *)
Theorem installation_guards (payload : json) (s : Site) :
  (forall action,
      Py.get payload "action" JNull = Ok action ->
      (Py.eq_str action "created" || Py.eq_str action "added") = false ->
      perform host (handle_installation lib payload) s
      = (Ok (ignored ("action=" ++ fstr lib action)), s)) /\
  (forall inst,
      acts_on payload inst ->
      has_key payload "repositories" = false ->
      has_key payload "repositories_added" = false ->
      perform host (handle_installation lib payload) s
      = (Ok (ignored "no repositories"), s)) /\
  (forall inst items,
      lists_repositories payload "repositories" inst items ->
      perform host (handle_installation lib payload) s
      = match perform host (register_repos inst items []) s with
        | (Ok registered, s') => (Ok (registered_ok registered), s')
        | (Err e, s') => (Err e, s')
        end).
Proof.
  split; [|split].
  - intros action Ha Hact. unfold handle_installation.
    rewrite Ha. cbn [tattempt]. rewrite Hact. reflexivity.
  - intros inst ((action & Ha & Hact) & (installation & Hi & Hid)) Hk1 Hk2.
    unfold handle_installation. rewrite Ha. cbn [tattempt]. rewrite Hact.
    cbn [negb]. rewrite Hi. cbn [tattempt]. rewrite Hid. cbn [tattempt].
    rewrite Hk1, Hk2. reflexivity.
  - intros inst items (((action & Ha & Hact) & (installation & Hi & Hid)) & Hrepos).
    unfold handle_installation. rewrite Ha. cbn [tattempt]. rewrite Hact.
    cbn [negb]. rewrite Hi. cbn [tattempt]. rewrite Hid. cbn [tattempt].
    assert (Hkey : has_key payload "repositories" = true).
    { unfold has_key. destruct payload; try discriminate.
      cbn [Py.getitem] in Hrepos.
      destruct (Py.assoc "repositories" fields); [reflexivity|discriminate]. }
    rewrite Hkey, Hrepos. cbn [tattempt Py.iter]. rewrite perform_tbind.
    destruct (perform host (register_repos inst items []) s) as [[reg|e] s'];
      reflexivity.
Qed.

End Registrar.

(** ** The entry point *)

Section Entry.

Variable lib : PyLib.
Variable host : Hosting.

(** X23: routing.  An event type other than [installation],
    [installation_repositories] and [workflow_run] is answered [ignored]
    with the type echoed, and nothing is read or written.  A
    [workflow_run] event is handled by the pipeline on the world of the
    site: its answer and its effects are those of the pipeline, and the
    reads of repository contents are untouched. *)
Theorem handle_webhook_routes (event : string) (payload : json) (s : Site) :
  (event <> "installation" ->
   event <> "installation_repositories" ->
   event <> "workflow_run" ->
   perform host (handle_webhook lib event payload) s
   = (Ok (JObj [("status", JStr "ignored"); ("event", JStr event)]), s)) /\
  perform host (handle_webhook lib "workflow_run" payload) s
  = (fst (run (services host) (handle_workflow_run lib payload) (core s)),
     {| core := snd (run (services host) (handle_workflow_run lib payload)
                       (core s));
        contents_log := contents_log s |}) /\
  handle_webhook lib "installation_repositories" payload
  = handle_installation lib payload.
Proof.
  split; [|split].
  - intros H1 H2 H3. unfold handle_webhook, handlers. cbn [handlers_get].
    apply String.eqb_neq in H1, H2, H3.
    rewrite String.eqb_sym in H1. rewrite String.eqb_sym in H2.
    rewrite String.eqb_sym in H3. rewrite H1, H2, H3. reflexivity.
  - apply (perform_embed host).
  - reflexivity.
Qed.

Lemma endpoint_perform (event : string) (payload : json) (s : Site) :
  perform host (github_webhook lib host event payload) s
  = match perform host (handle_webhook lib event payload) s with
    | (Ok result, s') => (Ok (JSONResponse result 200), s')
    | (Err e, s') => (Ok (HTTPException 500 (str_exn host e)), s')
    end.
Proof.
  unfold github_webhook. rewrite perform_catch, perform_tbind.
  destruct (perform host (handle_webhook lib event payload) s) as [[r|e] s'];
    reflexivity.
Qed.

(** X24: the endpoint never raises past the handler and never undoes what
    the handler did: when the handler returns, the response is its answer
    with status 200; when it raises, the response is status 500 with the
    text of the exception; in both cases the site is as the handler left
    it. *)
Theorem endpoint_answers_200_or_500 (event : string) (payload : json) (s : Site) :
  perform host (github_webhook lib host event payload) s
  = match perform host (handle_webhook lib event payload) s with
    | (Ok result, s') => (Ok (JSONResponse result 200), s')
    | (Err e, s') => (Ok (HTTPException 500 (str_exn host e)), s')
    end.
Proof. exact (endpoint_perform event payload s). Qed.

(** X25: a completed [workflow_run] event without its [workflow_run]
    object, or an installation event to act on without its
    [installation] object, is answered 500 with the text of the
    [KeyError], and nothing has been read or written. *)
Theorem missing_object_is_500 (payload : json) (fields : list (string * json))
    (s : Site) :
  payload = JObj fields ->
  (Py.assoc "action" fields = Some (JStr "completed") ->
   Py.assoc "workflow_run" fields = None ->
   perform host (github_webhook lib host "workflow_run" payload) s
   = (Ok (HTTPException 500 (str_exn host (KeyError "workflow_run"))), s)) /\
  (Py.assoc "action" fields = Some (JStr "created") ->
   Py.assoc "installation" fields = None ->
   perform host (github_webhook lib host "installation" payload) s
   = (Ok (HTTPException 500 (str_exn host (KeyError "installation"))), s)).
Proof.
  intros ->. split; intros Ha Hmiss; rewrite endpoint_perform.
  - change (handle_webhook lib "workflow_run" (JObj fields))
      with (embed (handle_workflow_run lib (JObj fields))).
    rewrite perform_embed. unfold handle_workflow_run.
    cbn [Py.get Py.getitem]. rewrite Ha, Hmiss.
    destruct s; reflexivity.
  - change (handle_webhook lib "installation" (JObj fields))
      with (handle_installation lib (JObj fields)).
    unfold handle_installation. cbn [Py.get Py.getitem]. rewrite Ha, Hmiss.
    reflexivity.
Qed.

End Entry.

(** ** Further examples in the small deployment *)


Lemma publisher_calls_in_order_witness :
  fst (run (Toy.svc false)
         (create_submission_pr Toy.lib Toy.board (Toy.manifest "expected/repo")
            (JObj [("score", JNum 1)]) "a=1" (JNum 1)) Toy.world)
  = Ok (JStr "https://github.com/expected/repo/pull/1").
Proof.
  erewrite (publisher_calls_in_order Toy.lib (Toy.svc false) Toy.world
              Toy.board (Toy.manifest "expected/repo")
              (JObj [("score", JNum 1)]) "a=1" (JNum 1) (JStr "alice")
              "2024-01-02T03:04:05Z");
    reflexivity.
Defined.

(** The branch of run 1 exists: GitHub refuses it, nothing else is called. *)
Lemma publisher_stops_at_refusal_witness :
  run (Toy.svc false)
    (create_submission_pr Toy.lib Toy.board (Toy.manifest "expected/repo")
       (JObj [("score", JNum 1)]) "a=1" (JNum 1)) orphan_world
  = (Err (GithubError "Reference already exists"),
     logged orphan_world [branch_call Toy.lib Toy.board (JNum 1)]).
Proof.
  apply (proj1 (publisher_stops_at_refusal Toy.lib (Toy.svc false)
                  orphan_world Toy.board (Toy.manifest "expected/repo")
                  (JObj [("score", JNum 1)]) "a=1" (JNum 1) (JStr "alice")
                  "2024-01-02T03:04:05Z"
                  (GithubError "Reference already exists")
                  eq_refl eq_refl)).
  reflexivity.
Defined.

Lemma orphan_fresh :
  fresh_run (Toy.svc false) (Toy.payload 1) orphan_world 1 "alice/agent"
    (JNum 99) Toy.board.
Proof.
  eexists. split; [apply toy_run_event; [reflexivity..|discriminate]|].
  split; [eexists; split; reflexivity|]. split; reflexivity.
Qed.

Lemma orphan_delivers :
  delivers (Toy.svc false) orphan_world (JNum 99) (JStr "alice/agent")
    (JNum 1) (JNum 1) (archive 1).
Proof.
  split; [|split; [reflexivity|discriminate]].
  eexists [JObj [("id", JNum 10); ("name", JStr "logs")]],
    (JObj [("id", JNum 1); ("name", JStr "agentbeats-submission")]), [].
  split; [eexists; split; reflexivity|].
  split; [constructor; [eexists; split; reflexivity|constructor]|].
  eexists. repeat split; reflexivity.
Qed.

(** Run 1 delivered when its branch is already there: the delivery raises
    and the run stays without submission. *)
Lemma publish_failure_leaves_no_record_witness :
  fst (run (Toy.svc false) (handle_workflow_run Toy.lib (Toy.payload 1))
         orphan_world)
  = Err (GithubError "Reference already exists").
Proof.
  edestruct (publish_failure_leaves_no_record Toy.lib (Toy.svc false)
               (Toy.payload 1) orphan_world) as [H _];
    [ exact orphan_fresh | exact orphan_delivers
    | reflexivity | reflexivity | reflexivity | reflexivity
    | rewrite H; reflexivity ].
Defined.

Lemma extraction_failure_leaves_no_record_witness :
  run (Toy.svc false) (handle_workflow_run broken_lib (Toy.payload 1)) Toy.world
  = (Err (LibraryError "JSONDecodeError"),
     logged Toy.world [GetArtifacts (JNum 99) (JStr "alice/agent") (JNum 1);
                       DownloadArtifact (JNum 99) (JStr "alice/agent") (JNum 1)]).
Proof.
  apply (extraction_failure_leaves_no_record broken_lib (Toy.svc false)
           (Toy.payload 1) Toy.world 1 "alice/agent" (JNum 99) (JNum 1)
           Toy.board (archive 1)).
  - apply (toy_fresh false 1).
  - apply (toy_delivers false 1). left. reflexivity.
  - reflexivity.
Defined.

(** Run 5: the artifact is listed and downloads as [None]. *)
Lemma empty_download_is_failed_witness :
  fst (run (Toy.svc false) (handle_workflow_run Toy.lib (Toy.payload 5))
         Toy.world)
  = Ok (error "no artifact").
Proof.
  erewrite (empty_download_is_failed Toy.lib (Toy.svc false) (Toy.payload 5)
              Toy.world 5 "alice/agent" (JNum 99) (JNum 5)
              (JObj [("id", JNum 5); ("name", JStr "agentbeats-submission")])
              Toy.board [JObj [("id", JNum 10); ("name", JStr "logs")]] []
              None);
    [ reflexivity
    | apply (toy_fresh false 5)
    | eexists; split; reflexivity
    | constructor; [eexists; split; reflexivity|constructor]
    | eexists; repeat split; reflexivity
    | reflexivity
    | left; reflexivity ].
Defined.

Lemma find_leaderboard_raises_on_malformed_witness :
  run (Toy.svc false)
    (find_leaderboard
       (JArr [Toy.reference "other/foo/.github/workflows/runner.yml";
              JObj [("ref", JStr "main")];
              Toy.reference "expected/repo/.github/workflows/runner.yml"]))
    Toy.world
  = (Err (KeyError "path"), Toy.world).
Proof.
  edestruct (find_leaderboard_raises_on_malformed (Toy.svc false) Toy.world
               [Toy.reference "other/foo/.github/workflows/runner.yml"]
               [Toy.reference "expected/repo/.github/workflows/runner.yml"]
               (JObj [("ref", JStr "main")])) as [H _].
  - constructor; [|constructor].
    eexists. split; [reflexivity|]. right. reflexivity.
  - apply H. reflexivity.
Defined.

Lemma download_takes_first_named_witness :
  run (Toy.svc false)
    (download_submission_artifact (JNum 99) (JStr "alice/agent") (JNum 1))
    Toy.world
  = (Ok (Some (archive 1)),
     logged Toy.world [GetArtifacts (JNum 99) (JStr "alice/agent") (JNum 1);
                       DownloadArtifact (JNum 99) (JStr "alice/agent") (JNum 1)]).
Proof.
  edestruct (download_takes_first_named (Toy.svc false) Toy.world
               (JNum 99) (JStr "alice/agent") (JNum 1)
               (JObj [("id", JNum 1); ("name", JStr "agentbeats-submission")])
               (JNum 1) [JObj [("id", JNum 10); ("name", JStr "logs")]] [])
    as [H _].
  - eexists. split; reflexivity.
  - constructor; [eexists; split; reflexivity|constructor].
  - rewrite H; [reflexivity|]. eexists. repeat split; reflexivity.
Defined.

Lemma record_submission_owner_witness :
  exists row,
    run (Toy.svc false)
      (record_submission Toy.lib (JNum 1) "expected/repo"
         (JStr ("alice" ++ "/" ++ "agent")) "failed" (Some "No artifact found")
         JNull JNull) seen_world
    = (Ok tt, inserted seen_world row) /\
    purple_owner row = "alice" /\
    purple_repo row = "alice" ++ "/" ++ "agent" /\
    workflow_run_id row = 1%Z.
Proof.
  apply (record_submission_owner Toy.lib (Toy.svc false) seen_world 1
           "expected/repo" "alice" "agent" "failed" (Some "No artifact found"));
    reflexivity.
Defined.

(** Two archives that differ in an entry that is no document. *)
Lemma extraction_reads_documents_only_witness :
  parse_artifact Toy.lib [Byte.x01; Byte.x00]
  = parse_artifact Toy.lib [Byte.x01; Byte.x06].
Proof.
  eapply (extraction_reads_documents_only Toy.lib
            [Byte.x01; Byte.x00] [Byte.x01; Byte.x06]);
    reflexivity.
Defined.



Lemma registers_new_repository_witness :
  perform toy_host
    (register_repos (JNum 5) [toy_repo 8 "new/board" false] []) toy_site
  = (Ok [JStr "new/board"],
     site_with (after_read toy_site (JNum 5) (JStr "new/board"))
       (leaderboards Toy.world ++ [new_board toy_site 8 "new/board" 5])%list).
Proof.
  rewrite (registers_new_repository toy_host 5 (toy_repo 8 "new/board" false)
             "new/board" 8 [] [] toy_site);
    [ reflexivity
    | eexists; repeat split; reflexivity
    | reflexivity
    | reflexivity ].
Defined.

Lemma known_repository_is_renamed_in_place_witness :
  perform toy_host
    (register_repos (JNum 5) [toy_repo 1001 "renamed/repo" false] []) toy_site
  = (Ok [],
     site_with (after_read toy_site (JNum 5) (JStr "renamed/repo"))
       [ {| lb_id := 1; github_repo_id := 1001;
            repo_full_name := "renamed/repo"; installation_id := 5 |} ]).
Proof.
  edestruct (known_repository_is_renamed_in_place toy_host
               (JNum 5) (toy_repo 1001 "renamed/repo" false)
               "renamed/repo" 1001 [] [] toy_site Toy.board)
    as (_ & H & _).
  - eexists. repeat split; reflexivity.
  - reflexivity.
  - reflexivity.
  - rewrite H; [reflexivity|discriminate].
Defined.

(** The event of the examples delivered a second time: the fork and the
    two leaderboards are settled; the two repositories without a readable
    runner file are left out of the second event here. *)
Lemma settled_event_changes_nothing_witness :
  exists s',
    perform toy_host
      (handle_installation Toy.lib
         (toy_installation "created"
            [toy_repo 7 "fork/repo" true;
             toy_repo 8 "new/board" false;
             toy_repo 1001 "renamed/repo" false]))
      (snd (perform toy_host (handle_installation Toy.lib toy_event) toy_site))
    = (Ok (registered_ok []), s') /\
    core s'
    = core (snd (perform toy_host (handle_installation Toy.lib toy_event)
                   toy_site)).
Proof.
  apply (settled_event_changes_nothing Toy.lib toy_host _ (JNum 5)
           [toy_repo 7 "fork/repo" true;
            toy_repo 8 "new/board" false;
            toy_repo 1001 "renamed/repo" false]).
  - split; [split|reflexivity].
    + eexists. split; reflexivity.
    + eexists. split; reflexivity.
  - constructor; [left; reflexivity|].
    constructor; [right; do 4 eexists; repeat split; reflexivity|].
    constructor; [right; do 4 eexists; repeat split; reflexivity|].
    constructor.
Defined.

Lemma missing_object_is_500_witness :
  perform toy_host
    (github_webhook Toy.lib toy_host "workflow_run"
       (JObj [("action", JStr "completed")])) toy_site
  = (Ok (HTTPException 500 "'workflow_run'"), toy_site).
Proof.
  apply (proj1 (missing_object_is_500 Toy.lib toy_host
                  (JObj [("action", JStr "completed")])
                  [("action", JStr "completed")] toy_site eq_refl));
    reflexivity.
Defined.

(** The event of the examples, delivered twice: the first delivery
    registers the new leaderboard and renames the known one in place, the
    second registers nothing and leaves the table as it is. *)
Example installation_delivered_twice :
  let first := perform toy_host (handle_installation Toy.lib toy_event)
                 toy_site in
  let second := perform toy_host (handle_installation Toy.lib toy_event)
                  (snd first) in
  fst first = Ok (registered_ok [JStr "new/board"]) /\
  map repo_full_name (leaderboards (core (snd first)))
  = ["renamed/repo"; "new/board"] /\
  fst second = Ok (registered_ok []) /\
  leaderboards (core (snd second)) = leaderboards (core (snd first)).
Proof. repeat split. Qed.
